(** * Instagram Auto Publisher: the publish route, the upload form, the
      scheduled-post cards and the dashboard page, embedded from the
      TypeScript sources.

    - [Route]      src/app/api/instagram/publish/route.ts  ([requestSchema], [POST])
    - [Uploader]   src/components/InstagramUploader.tsx    ([formSchema], [handleSubmit])
    - [Posts]      the ScheduledPosts component            ([statusLabel])
    - [Dashboard]  the dashboard page                      ([Home])
    - [Loop]       the form's [fetch] answered by the route, with [Json]
                   for the text of the response

    JavaScript strings are [string]s: [String.length] is [.length] and the
    empty string is the only falsy one.  An optional field that is
    [undefined] or [null] is [None].  The collaborators the sources import
    (Cloudinary, the Graph API client of lib/instagram, the configuration
    reader of lib/env, the engine's date parser, [fetch]) are fields of an
    environment record; a handler is a function of that record and of its
    request, and every call it makes to a collaborator is written, in order,
    to the trace of the [Task] it returns. *)

From Stdlib Require Import String Ascii List ZArith QArith Lia Bool DecimalString.
Import ListNotations.
Local Open Scope string_scope.
Local Open Scope Z_scope.

(* ------------------------------------------------------------------ *)
(** ** JavaScript values the code inspects *)

Module Js.

(** A value caught by [catch (error)]: an [Error] instance with its
    [message], or anything else (Cloudinary hands its callback plain
    objects that may carry a [message] property without being [Error]s). *)
Inductive thrown : Type :=
| ErrorInstance (message : string)
| NotAnError (message : option string).

(** [error instanceof Error ? error.message : fallback] *)
Definition message_or (fallback : string) (e : thrown) : string :=
  match e with
  | ErrorInstance m => m
  | NotAnError _ => fallback
  end.

(** Truthiness of a string: only the empty one is falsy. *)
Definition truthy (s : string) : bool :=
  negb (Nat.eqb (String.length s) 0).

(** Truthiness of [string | undefined]. *)
Definition truthy_opt (v : option string) : bool :=
  match v with
  | Some s => truthy s
  | None => false
  end.

(** [a ?? b] with [b] never nullish: [b] only when [a] is [undefined] or
    [null]. *)
Definition nullish {A : Type} (a : option A) (b : A) : A :=
  match a with
  | Some x => x
  | None => b
  end.

(** [a ?? b] with [b] optional too. *)
Definition coalesce {A : Type} (a b : option A) : option A :=
  match a with
  | Some x => Some x
  | None => b
  end.

(** [a || b] on optional strings: [b] when [a] is nullish or empty. *)
Definition or_else (a b : option string) : option string :=
  if truthy_opt a then a else b.

(** A [File]: the fields the code reads. *)
Record File : Type := mkFile {
  name : string;
  size : Z;
  arrayBuffer : list Byte.byte
}.

(** An entry value of a [FormData]. *)
Inductive entry : Type :=
| EString (s : string)
| EFile (f : File).

(** [FormData]: the appended entries in order; names may repeat. *)
Definition FormData : Type := list (string * entry).

(** [formData.get(name)]: the first entry of that name, else [null]. *)
Fixpoint get (fd : FormData) (key : string) : option entry :=
  match fd with
  | [] => None
  | (k, v) :: rest => if String.eqb k key then Some v else get rest key
  end.

(** [formData.append(name, value)] *)
Definition append (fd : FormData) (key : string) (v : entry) : FormData :=
  (fd ++ [(key, v)])%list.

(** [formData.delete(name)]: every entry of that name goes. *)
Definition delete (fd : FormData) (key : string) : FormData :=
  filter (fun kv => negb (String.eqb (fst kv) key)) fd.

(** [formData.has(name)] *)
Definition has (fd : FormData) (key : string) : bool :=
  match get fd key with
  | Some _ => true
  | None => false
  end.

(** [typeof v === "string" ? (v as string) : dflt] on a [get] result. *)
Definition string_or {A : Type} (v : option entry) (inj : string -> A) (dflt : A) : A :=
  match v with
  | Some (EString s) => inj s
  | _ => dflt
  end.

(** [v instanceof File] on a [get] result. *)
Definition as_file (v : option entry) : option File :=
  match v with
  | Some (EFile f) => Some f
  | _ => None
  end.

(** JSON values: the bodies the route answers with, and what the Graph API
    client returns. *)
#[warnings="-register-all"]
Inductive json : Type :=
| JNull
| JBool (b : bool)
| JNum (n : Z)
| JStr (s : string)
| JObj (fields : list (string * json)).

(** [`${n}`] for an integer. *)
Definition number_to_string (n : Z) : string :=
  NilZero.string_of_int (Z.to_int n).

End Js.

(* ------------------------------------------------------------------ *)
(** ** [Date]: [new Date(string).toISOString()] *)

Module JsDate.

Definition msPerDay : Z := 86400000.

(** The decimal digit of [n mod 10]. *)
Definition digit (n : Z) : ascii :=
  ascii_of_nat (48 + Z.to_nat (n mod 10)).

(** The last [width] decimal digits of [n], zero-padded. *)
Fixpoint pad (width : nat) (n : Z) : string :=
  match width with
  | O => EmptyString
  | S w => pad w (n / 10) ++ String (digit n) EmptyString
  end.

(** Year, month (1..12) and day of the month of a day number counted from
    1970-01-01, in the proleptic Gregorian calendar ([/] rounds down). *)
Definition civil (day : Z) : Z * Z * Z :=
  let z := day + 719468 in
  let era := z / 146097 in
  let doe := z - era * 146097 in
  let yoe := (doe - doe / 1460 + doe / 36524 - doe / 146096) / 365 in
  let doy := doe - (365 * yoe + yoe / 4 - yoe / 100) in
  let mp := (5 * doy + 2) / 153 in
  let d := doy - (153 * mp + 2) / 5 + 1 in
  let m := if mp <? 10 then mp + 3 else mp - 9 in
  let y := yoe + era * 400 + (if m <=? 2 then 1 else 0) in
  (y, m, d).

(** Four digits for the years 0..9999, else a sign and six digits. *)
Definition year_string (y : Z) : string :=
  if (0 <=? y) && (y <=? 9999) then pad 4 y
  else (if y <? 0 then "-" else "+") ++ pad 6 (Z.abs y).

(** [YYYY-MM-DDTHH:mm:ss.sssZ] of a time value (milliseconds since the
    epoch, UTC). *)
Definition iso_of_time (t : Z) : string :=
  let '(y, m, d) := civil (t / msPerDay) in
  let ms := t mod msPerDay in
  year_string y ++ "-" ++ pad 2 m ++ "-" ++ pad 2 d ++ "T"
  ++ pad 2 (ms / 3600000) ++ ":" ++ pad 2 (ms / 60000 mod 60) ++ ":"
  ++ pad 2 (ms / 1000 mod 60) ++ "." ++ pad 3 (ms mod 1000) ++ "Z".

(** The message of the [RangeError] V8 throws (the route runs on the
    [nodejs] runtime). *)
Definition invalid_time_value : string := "Invalid time value".

(** [date.toISOString()] where the date's time value is [tv]; [None] is
    [NaN], the time value of an invalid date. *)
Definition toISOString (tv : option Z) : Js.thrown + string :=
  match tv with
  | Some t => inr (iso_of_time t)
  | None => inl (Js.ErrorInstance invalid_time_value)
  end.

End JsDate.

(* ------------------------------------------------------------------ *)
(** ** The fragment of zod the two schemas use *)

Module Zod.

(** An issue; the code only reads [message]. *)
Record issue : Type := mkIssue { message : string }.

(** [safeParse]: [inl issues] is [{ success: false, error }],
    [inr data] is [{ success: true, data }]. *)
Definition result (A : Type) : Type := (list issue + A)%type.

(** [z.string().min(n, msg)] on a string: one issue when too short. *)
Definition min (n : nat) (msg : string) (s : string) : list issue :=
  if Nat.ltb (String.length s) n then [mkIssue msg] else [].

(** [z.string().max(n, msg)] on a string: one issue when too long. *)
Definition max (n : nat) (msg : string) (s : string) : list issue :=
  if Nat.ltb n (String.length s) then [mkIssue msg] else [].

(** [z.object] gathers the issues of its keys in declaration order and
    succeeds when there are none. *)
Definition finish {A : Type} (issues : list issue) (data : A) : result A :=
  match issues with
  | [] => inr data
  | _ :: _ => inl issues
  end.

(** [error.issues[0]?.message ?? fallback] *)
Definition first_message (issues : list issue) (fallback : string) : string :=
  match issues with
  | i :: _ => message i
  | [] => fallback
  end.

End Zod.

(* ------------------------------------------------------------------ *)
(** ** Asynchronous code: a trace of collaborator calls and an outcome *)

Module Task.

Section WithEvent.

Context {E : Type}.

(** The calls made so far, oldest first, then the value returned or the
    value thrown. *)
Definition t (A : Type) : Type := (list E * (Js.thrown + A))%type.

Definition ret {A : Type} (a : A) : t A := ([], inr a).

Definition throw {A : Type} (e : Js.thrown) : t A := ([], inl e).

(** A call to a collaborator whose outcome the environment fixes. *)
Definition call {A : Type} (ev : E) (outcome : Js.thrown + A) : t A :=
  ([ev], outcome).

(** An outcome with no call ([await] of a settled promise, a pure
    expression that may throw). *)
Definition lift {A : Type} (outcome : Js.thrown + A) : t A := ([], outcome).

Definition bind {A B : Type} (m : t A) (k : A -> t B) : t B :=
  match snd m with
  | inl e => (fst m, inl e)
  | inr a => ((fst m ++ fst (k a))%list, snd (k a))
  end.

(** [try { m } catch (error) { h error }] *)
Definition try_catch {A : Type} (m : t A) (h : Js.thrown -> t A) : t A :=
  match snd m with
  | inl e => ((fst m ++ fst (h e))%list, snd (h e))
  | inr a => m
  end.

Definition trace {A : Type} (m : t A) : list E := fst m.

Definition outcome {A : Type} (m : t A) : Js.thrown + A := snd m.

End WithEvent.

End Task.

Declare Scope task_scope.
Delimit Scope task_scope with task.
Notation "x <- c ;; k" := (Task.bind c (fun x => k))
  (at level 61, c at next level, right associativity) : task_scope.
Notation "c ;;; k" := (Task.bind c (fun _ => k))
  (at level 61, right associativity) : task_scope.


(* ------------------------------------------------------------------ *)
(** ** src/app/api/instagram/publish/route.ts *)

Module Route.

(** The fields of the configuration of lib/env that the route reads. *)
Record Config : Type := mkConfig {
  CLOUDINARY_CLOUD_NAME : string;
  CLOUDINARY_API_KEY : string;
  CLOUDINARY_API_SECRET : string;
  CLOUDINARY_UPLOAD_FOLDER : string
}.

(** Cloudinary's [UploadApiResponse]: the field the route reads. *)
Record UploadApiResponse : Type := mkUpload { secure_url : string }.

(** The argument of [scheduleInstagramPost]; [publishAt = None] is
    [undefined], [locationId = None] is [null]. *)
Record ScheduleArgs : Type := mkArgs {
  caption : string;
  imageUrl : string;
  publishAt : option string;
  locationId : option string
}.

(** The calls the route makes to its collaborators. *)
Inductive event : Type :=
| CloudinaryConfig (cloud_name api_key api_secret : string)
| UploadStream (folder resource_type : string) (buffer : list Byte.byte)
| ScheduleInstagramPost (args : ScheduleArgs).

(** What the route's collaborators answer.
    - [getInstagramConfig]: the configuration, or the error it throws;
    - [upload_stream]: the two arguments [(error, result)] Cloudinary
      passes to the callback of [upload_stream] once [upload.end(buffer)] ran;
    - [scheduleInstagramPost]: the creation result, or the error thrown;
    - [Date_parse]: the time value [new Date(string)] gets ([None] for
      [NaN]); the engine and its time zone decide it;
    - [too_small_message]: the message zod gives the issue of
      [z.string().min(1)], which the schema leaves to zod's locale. *)
Record Env : Type := mkEnv {
  getInstagramConfig : Js.thrown + Config;
  upload_stream : string -> string -> list Byte.byte ->
                  option Js.thrown * option UploadApiResponse;
  scheduleInstagramPost : ScheduleArgs -> Js.thrown + Js.json;
  Date_parse : string -> option Z;
  too_small_message : string
}.

(** [request.formData()] either yields the parsed form or throws. *)
Record Request : Type := mkRequest {
  formData : Js.thrown + Js.FormData
}.

(** [NextResponse.json(body, { status })] *)
Record Response : Type := mkResponse {
  body : Js.json;
  status : Z
}.

(** [{ error: reason }] *)
Definition error_body (reason : string) : Js.json :=
  Js.JObj [("error", Js.JStr reason)].

(** [{ success: true, creation: scheduleResponse }] *)
Definition success_body (scheduleResponse : Js.json) : Js.json :=
  Js.JObj [("success", Js.JBool true); ("creation", scheduleResponse)].

(** The object [rawPayload] and the output of [requestSchema]. *)
Record Payload : Type := mkPayload {
  p_caption : string;
  p_publishAt : option string;
  p_locationId : option string
}.

(** [requestSchema.safeParse]:
    [{ caption: z.string().min(1), publishAt: z.string().optional(),
       locationId: z.string().optional() }]. *)
Definition requestSchema (env : Env) (raw : Payload) : Zod.result Payload :=
  Zod.finish (Zod.min 1 (too_small_message env) (p_caption raw)) raw.

(** The object [rawPayload] built from the form. *)
Definition rawPayload (fd : Js.FormData) : Payload :=
  {| p_caption := Js.string_or (Js.get fd "caption") (fun s => s) "";
     p_publishAt := Js.string_or (Js.get fd "publishAt") Some None;
     p_locationId := Js.string_or (Js.get fd "locationId") Some None |}.

(** How the promise around [cloudinary.uploader.upload_stream] settles:
    rejected with the callback's error, rejected when there is no result,
    else resolved with the result. *)
Definition upload_outcome (env : Env) (config : Config) (buffer : list Byte.byte)
  : Js.thrown + UploadApiResponse :=
  match upload_stream env (CLOUDINARY_UPLOAD_FOLDER config) "image" buffer with
  | (Some error, _) => inl error
  | (None, None) => inl (Js.ErrorInstance "Unknown Cloudinary upload error.")
  | (None, Some result) => inr result
  end.

(** [await new Promise(... upload.end(buffer) ...)] *)
Definition upload (env : Env) (config : Config) (buffer : list Byte.byte)
  : Task.t (E := event) UploadApiResponse :=
  Task.call (UploadStream (CLOUDINARY_UPLOAD_FOLDER config) "image" buffer)
    (upload_outcome env config buffer).

(** [parsed.data.publishAt ? new Date(parsed.data.publishAt).toISOString()
                           : undefined] *)
Definition publishAtIso (env : Env) (data : Payload) : Js.thrown + option string :=
  match p_publishAt data with
  | Some s =>
      if Js.truthy s then
        match JsDate.toISOString (Date_parse env s) with
        | inl e => inl e
        | inr iso => inr (Some iso)
        end
      else inr None
  | None => inr None
  end.

Local Open Scope task_scope.

(** The [try] block of [POST]. *)
Definition publish (env : Env) (config : Config) (image : Js.File) (data : Payload)
  : Task.t (E := event) Response :=
  uploadResult <- upload env config (Js.arrayBuffer image) ;;
  iso <- Task.lift (publishAtIso env data) ;;
  let args := {| caption := p_caption data;
                 imageUrl := secure_url uploadResult;
                 publishAt := iso;
                 locationId := p_locationId data |} in
  scheduleResponse <- Task.call (ScheduleInstagramPost args)
                        (scheduleInstagramPost env args) ;;
  Task.ret {| body := success_body scheduleResponse; status := 200 |}.

(** The [catch] block of [POST]. *)
Definition failed (error : Js.thrown) : Response :=
  {| body := error_body (Js.message_or "Upload request failed." error);
     status := 500 |}.

(** [cloudinary.config({ cloud_name, api_key, api_secret })] *)
Definition configure (config : Config) : event :=
  CloudinaryConfig (CLOUDINARY_CLOUD_NAME config) (CLOUDINARY_API_KEY config)
    (CLOUDINARY_API_SECRET config).

(** [export async function POST(request: Request)] *)
Definition POST (env : Env) (request : Request) : Task.t (E := event) Response :=
  match getInstagramConfig env with
  | inl error =>
      Task.ret {| body := error_body (Js.message_or "Missing environment config." error);
                  status := 500 |}
  | inr config =>
      Task.call (configure config) (inr tt) ;;;
      fd <- Task.lift (formData request) ;;
      match Js.as_file (Js.get fd "image") with
      | None =>
          Task.ret {| body := error_body "Image file is required."; status := 400 |}
      | Some image =>
          match requestSchema env (rawPayload fd) with
          | inl issues =>
              Task.ret {| body := error_body
                                    (Zod.first_message issues "Invalid request payload.");
                          status := 400 |}
          | inr data =>
              Task.try_catch (publish env config image data)
                (fun error => Task.ret (failed error))
          end
      end
  end.

(** The buffers handed to Cloudinary, and the arguments handed to
    [scheduleInstagramPost], in a trace. *)
Definition uploads (tr : list event) : list (list Byte.byte) :=
  flat_map (fun ev => match ev with
                      | UploadStream _ _ buffer => [buffer]
                      | _ => []
                      end) tr.

Definition schedules (tr : list event) : list ScheduleArgs :=
  flat_map (fun ev => match ev with
                      | ScheduleInstagramPost args => [args]
                      | _ => []
                      end) tr.

End Route.

(* ------------------------------------------------------------------ *)
(** ** src/components/InstagramUploader.tsx *)

Module Uploader.

Definition MAX_FILE_SIZE_MB : Z := 8.

(** [z.enum(["immediate", "scheduled"])] *)
Inductive Mode : Type :=
| immediate
| scheduled.

(** [type FormFields = z.infer<typeof formSchema>] *)
Record FormFields : Type := mkFields {
  caption : string;
  publishAt : option string;
  mode : Mode;
  locationId : option string
}.

(** [(value) => (value && value.length > 0 ? value : undefined)] *)
Definition transform (value : option string) : option string :=
  match value with
  | Some v => if Js.truthy v && Nat.ltb 0 (String.length v) then Some v else None
  | None => None
  end.

(** [formSchema.safeParse]: the caption's two checks, then the transforms
    of [publishAt] and [locationId]; a [mode] of the enum is kept. *)
Definition formSchema (input : FormFields) : Zod.result FormFields :=
  Zod.finish
    (Zod.min 1 "Caption is required" (caption input)
     ++ Zod.max 2200 "Instagram captions are limited to 2,200 characters."
          (caption input))%list
    {| caption := caption input;
       publishAt := transform (publishAt input);
       mode := mode input;
       locationId := transform (locationId input) |}.

(** The component's [useState] cells. *)
Record State : Type := mkState {
  formState : FormFields;
  file : option Js.File;
  isSubmitting : bool;
  message : option string;
  error : option string
}.

Definition initial : State :=
  {| formState := {| caption := ""; publishAt := None;
                     mode := immediate; locationId := None |};
     file := None;
     isSubmitting := false;
     message := None;
     error := None |}.

Definition setFormState (f : FormFields -> FormFields) (st : State) : State :=
  {| formState := f (formState st); file := file st;
     isSubmitting := isSubmitting st; message := message st; error := error st |}.

Definition setFile (v : option Js.File) (st : State) : State :=
  {| formState := formState st; file := v;
     isSubmitting := isSubmitting st; message := message st; error := error st |}.

Definition setIsSubmitting (v : bool) (st : State) : State :=
  {| formState := formState st; file := file st;
     isSubmitting := v; message := message st; error := error st |}.

Definition setMessage (v : option string) (st : State) : State :=
  {| formState := formState st; file := file st;
     isSubmitting := isSubmitting st; message := v; error := error st |}.

Definition setError (v : option string) (st : State) : State :=
  {| formState := formState st; file := file st;
     isSubmitting := isSubmitting st; message := message st; error := v |}.

(** [function resetForm()] *)
Definition resetForm (st : State) : State :=
  setFile None
    (setFormState (fun _ => {| caption := ""; publishAt := None;
                               mode := immediate; locationId := None |}) st).

(** What [handleSubmit] does to the outside. *)
Inductive effect : Type :=
| Fetch (url method : string) (body : Js.FormData)
| RouterRefresh.

(** A [fetch] response: the fields [handleSubmit] reads. *)
Record FetchResponse : Type := mkFetchResponse {
  ok : bool;
  status : Z;
  text : Js.thrown + string
}.

(** [fetch(url, { method, body })]: the response, or the error thrown. *)
Definition fetch_fn : Type :=
  string -> string -> Js.FormData -> Js.thrown + FetchResponse.

(** [file.size / (1024 * 1024)]; the quotient of an integer below 2^53 by
    a power of two is exact in a double, so it is that rational. *)
Definition megabytes (f : Js.File) : Q :=
  (inject_Z (Js.size f) / inject_Z (1024 * 1024))%Q.

(** [megabytes > MAX_FILE_SIZE_MB] *)
Definition too_large (f : Js.File) : bool :=
  if Qlt_le_dec (inject_Z MAX_FILE_SIZE_MB) (megabytes f) then true else false.

(** The [FormData] built from the file and the parsed fields. *)
Definition outgoing (f : Js.File) (data : FormFields) : Js.FormData :=
  let formData := Js.append [] "image" (Js.EFile f) in
  let formData := Js.append formData "caption" (Js.EString (caption data)) in
  let formData :=
    match locationId data with
    | Some l => if Js.truthy l
                then Js.append formData "locationId" (Js.EString l)
                else formData
    | None => formData
    end in
  match mode data, publishAt data with
  | scheduled, Some p => if Js.truthy p
                         then Js.append formData "publishAt" (Js.EString p)
                         else formData
  | _, _ => formData
  end.

Local Open Scope task_scope.

(** The [try] block of [handleSubmit]: the request, the check of
    [response.ok], then the state after [setMessage], [resetForm()] and
    [router.refresh()]. *)
Definition attempt (fetch : fetch_fn) (f : Js.File) (data : FormFields) (st : State)
  : Task.t (E := effect) State :=
  let body := outgoing f data in
  response <- Task.call (Fetch "/api/instagram/publish" "POST" body)
                (fetch "/api/instagram/publish" "POST" body) ;;
  (if negb (ok response) then
     txt <- Task.lift (text response) ;;
     Task.throw
       (Js.ErrorInstance
          (if Js.truthy txt then txt
           else "Instagram upload failed with status "
                ++ Js.number_to_string (status response) ++ "."))
   else Task.ret tt) ;;;
  Task.call RouterRefresh (inr tt) ;;;
  Task.ret
    (resetForm
       (setMessage
          (Some match mode data with
                | scheduled => "Post scheduled successfully!"
                | immediate => "Post published to Instagram!"
                end) st)).

(** [async function handleSubmit(event)]: the state once the handler has
    run to its end, and what it did to the outside, in order. *)
Definition handleSubmit (fetch : fetch_fn) (st : State) : State * list effect :=
  match file st with
  | None => (setError (Some "Please select an image to upload.") st, [])
  | Some f =>
      if too_large f then
        (setError (Some ("Image must be smaller than "
                         ++ Js.number_to_string MAX_FILE_SIZE_MB ++ "MB.")) st, [])
      else
        match formSchema (formState st) with
        | inl issues =>
            (setError (Some (Zod.first_message issues "Invalid form input.")) st, [])
        | inr data =>
            let st1 := setError None (setMessage None (setIsSubmitting true st)) in
            let run :=
              Task.try_catch (attempt fetch f data st1)
                (fun uploadError =>
                   Task.ret
                     (setError
                        (Some (Js.message_or "Unknown error while uploading."
                                 uploadError)) st1)) in
            (setIsSubmitting false
               match Task.outcome run with
               | inr st2 => st2
               | inl _ => st1
               end,
             Task.trace run)
        end
  end.

(** The handlers of the form's controls. *)
Inductive action : Type :=
| ChooseFile (selected : option Js.File)
| EditCaption (value : string)
| ClickPublishNow
| ClickSchedule
| EditPublishAt (value : string)
| EditLocationId (value : string)
| Submit.

(** One interaction with the form (rendered when [envReady]).  The
    [publishAt] input exists only while [formState.mode === "scheduled"];
    the submit button is disabled while [isSubmitting]. *)
Definition step (fetch : fetch_fn) (a : action) (st : State) : State * list effect :=
  match a with
  | ChooseFile selected => (setFile selected st, [])
  | EditCaption value =>
      (setFormState (fun prev => {| caption := value; publishAt := publishAt prev;
                                    mode := mode prev;
                                    locationId := locationId prev |}) st, [])
  | ClickPublishNow =>
      (setFormState (fun prev => {| caption := caption prev; publishAt := None;
                                    mode := immediate;
                                    locationId := locationId prev |}) st, [])
  | ClickSchedule =>
      (setFormState (fun prev => {| caption := caption prev;
                                    publishAt := publishAt prev;
                                    mode := scheduled;
                                    locationId := locationId prev |}) st, [])
  | EditPublishAt value =>
      match mode (formState st) with
      | scheduled =>
          (setFormState (fun prev => {| caption := caption prev;
                                        publishAt := Some value;
                                        mode := mode prev;
                                        locationId := locationId prev |}) st, [])
      | immediate => (st, [])
      end
  | EditLocationId value =>
      (setFormState (fun prev => {| caption := caption prev;
                                    publishAt := publishAt prev;
                                    mode := mode prev;
                                    locationId := Some value |}) st, [])
  | Submit => if isSubmitting st then (st, []) else handleSubmit fetch st
  end.

(** A session: the interactions in order, from a given state. *)
Fixpoint run (fetch : fetch_fn) (actions : list action) (st : State)
  : State * list effect :=
  match actions with
  | [] => (st, [])
  | a :: rest =>
      let '(st1, out1) := step fetch a st in
      let '(st2, out2) := run fetch rest st1 in
      (st2, (out1 ++ out2)%list)
  end.

End Uploader.

(* ------------------------------------------------------------------ *)
(** ** The ScheduledPosts component *)

Module Posts.

(** [ScheduledPost] of lib/instagram: the fields the component reads, each
    optional but [id].  Timestamps are not part of this model. *)
Record ScheduledPost : Type := mkPost {
  id : string;
  caption : option string;
  media_url : option string;
  thumbnail_url : option string;
  status_code : option string;
  status : option string;
  is_published : option bool;
  permalink : option string
}.

(** [post.status_code ?? post.status ??
     (post.is_published ? "PUBLISHED" : "SCHEDULED")] *)
Definition statusLabel (post : ScheduledPost) : string :=
  Js.nullish (Js.coalesce (status_code post) (status post))
    (match is_published post with
     | Some true => "PUBLISHED"
     | _ => "SCHEDULED"
     end).

(** One [<article>]: the label, the preview's [src] and [alt] when there is
    a preview, the caption and the permalink when shown. *)
Record Card : Type := mkCard {
  key : string;
  label : string;
  preview : option (string * string);
  shown_caption : option string;
  link : option string
}.

Definition card (post : ScheduledPost) : Card :=
  {| key := id post;
     label := statusLabel post;
     preview :=
       if Js.truthy_opt (Js.or_else (media_url post) (thumbnail_url post))
       then Some (Js.nullish (Js.coalesce (media_url post) (thumbnail_url post)) "",
                  Js.nullish (caption post) "Scheduled Instagram post preview")
       else None;
     shown_caption := if Js.truthy_opt (caption post) then caption post else None;
     link := if Js.truthy_opt (permalink post) then permalink post else None |}.

(** What the component renders. *)
Inductive View : Type :=
| Placeholder
| Cards (cards : list Card).

(** [export default function ScheduledPosts({ posts })] *)
Definition ScheduledPosts (posts : list ScheduledPost) : View :=
  match posts with
  | [] => Placeholder
  | _ :: _ => Cards (map card posts)
  end.

End Posts.

(* ------------------------------------------------------------------ *)
(** ** The dashboard page *)

Module Dashboard.

(** [validateInstagramConfig()] of lib/env. *)
Record EnvStatus : Type := mkEnvStatus {
  ready : bool;
  missing : list string
}.

(** The quota [fetchPublishingLimit] resolves with. *)
Record PublishingLimit : Type := mkLimit {
  quota_usage : Z;
  quota_total : Z;
  quota_remaining : Z;
  reset_time : option string
}.

(** The calls the page makes. *)
Inductive event : Type :=
| FetchScheduledPosts
| FetchPublishingLimit.

(** What the page's collaborators answer: the configuration status, how
    each of the two promises settles, and, when both reject, whether the
    quota promise rejects before the posts promise. *)
Record Env : Type := mkEnv {
  validateInstagramConfig : EnvStatus;
  fetchScheduledPosts : Js.thrown + list Posts.ScheduledPost;
  fetchPublishingLimit : Js.thrown + option PublishingLimit;
  limit_rejects_first : bool
}.

(** [Promise.all([p, q])]: both values in order, or the reason of the
    promise that rejects first. *)
Definition Promise_all {A B : Type} (second_rejects_first : bool)
    (p : Js.thrown + A) (q : Js.thrown + B) : Js.thrown + (A * B) :=
  match p, q with
  | inr a, inr b => inr (a, b)
  | inl e, inr _ => inl e
  | inr _, inl e => inl e
  | inl e1, inl e2 => inl (if second_rejects_first then e2 else e1)
  end.

(** The three [let] variables once the [if (envStatus.ready)] block ran. *)
Record Loaded : Type := mkLoaded {
  scheduledPosts : list Posts.ScheduledPost;
  publishingLimit : option PublishingLimit;
  fetchError : option string
}.

Local Open Scope task_scope.

(** Both fetches are started, in this order, before either is awaited. *)
Definition fetch_both (env : Env)
  : Task.t (E := event) (list Posts.ScheduledPost * option PublishingLimit) :=
  Task.call FetchScheduledPosts (inr tt) ;;;
  Task.call FetchPublishingLimit (inr tt) ;;;
  Task.lift (Promise_all (limit_rejects_first env)
               (fetchScheduledPosts env) (fetchPublishingLimit env)).

(** Lines 13-33 of [Home]. *)
Definition load (env : Env) : Task.t (E := event) Loaded :=
  let start := {| scheduledPosts := []; publishingLimit := None;
                  fetchError := None |} in
  if ready (validateInstagramConfig env) then
    Task.try_catch
      (both <- fetch_both env ;;
       Task.ret {| scheduledPosts := fst both; publishingLimit := snd both;
                   fetchError := fetchError start |})
      (fun error =>
         Task.ret {| scheduledPosts := scheduledPosts start;
                     publishingLimit := publishingLimit start;
                     fetchError :=
                       Some (Js.message_or "Failed to load data from Instagram."
                               error) |})
  else Task.ret start.

(** The parts of the page that depend on the data: the quota banner, the
    error banner, the props of the uploader and the posts section. *)
Record Page : Type := mkPage {
  quota_banner : option PublishingLimit;
  error_banner : option string;
  envReady : bool;
  missingKeys : list string;
  posts_section : Posts.View
}.

(** The JSX [Home] returns. *)
Definition render (status : EnvStatus) (l : Loaded) : Page :=
  {| quota_banner := publishingLimit l;
     error_banner := if Js.truthy_opt (fetchError l) then fetchError l else None;
     envReady := ready status;
     missingKeys := if ready status then [] else missing status;
     posts_section := Posts.ScheduledPosts (scheduledPosts l) |}.

(** [export default async function Home()] *)
Definition Home (env : Env) : Task.t (E := event) Page :=
  l <- load env ;;
  Task.ret (render (validateInstagramConfig env) l).

End Dashboard.

(* ------------------------------------------------------------------ *)
(** ** Sample inputs *)

Module Sample.

Definition config : Route.Config :=
  {| Route.CLOUDINARY_CLOUD_NAME := "demo";
     Route.CLOUDINARY_API_KEY := "key";
     Route.CLOUDINARY_API_SECRET := "secret";
     Route.CLOUDINARY_UPLOAD_FOLDER := "instagram-agent" |}.

Definition png : Js.File :=
  {| Js.name := "photo.png";
     Js.size := 4;
     Js.arrayBuffer := [Byte.x89; Byte.x50; Byte.x4e; Byte.x47] |}.

Definition hosted : Route.UploadApiResponse :=
  {| Route.secure_url := "https://res.cloudinary.com/demo/image/upload/photo.png" |}.

Definition created : Js.json := Js.JObj [("id", Js.JStr "17900000000000000")].

(** An engine in the UTC zone: the two date strings it is asked about here,
    and [NaN] for anything else. *)
Definition parse (s : string) : option Z :=
  if String.eqb s "2025-01-01T10:00" then Some 1735725600000
  else if String.eqb s "2025-01-01T10:00:00.000Z" then Some 1735725600000
  else None.

(** Every collaborator succeeds. *)
Definition env : Route.Env :=
  {| Route.getInstagramConfig := inr config;
     Route.upload_stream := fun _ _ _ => (None, Some hosted);
     Route.scheduleInstagramPost := fun _ => inr created;
     Route.Date_parse := parse;
     Route.too_small_message := "String must contain at least 1 character(s)" |}.

(** The configuration cannot be loaded. *)
Definition env_unconfigured : Route.Env :=
  {| Route.getInstagramConfig :=
       inl (Js.ErrorInstance "Missing INSTAGRAM_ACCESS_TOKEN");
     Route.upload_stream := Route.upload_stream env;
     Route.scheduleInstagramPost := Route.scheduleInstagramPost env;
     Route.Date_parse := parse;
     Route.too_small_message := Route.too_small_message env |}.

(** Cloudinary reports a failure as a plain object with a message. *)
Definition env_upload_fails : Route.Env :=
  {| Route.getInstagramConfig := inr config;
     Route.upload_stream :=
       fun _ _ _ => (Some (Js.NotAnError (Some "Invalid image file")), None);
     Route.scheduleInstagramPost := Route.scheduleInstagramPost env;
     Route.Date_parse := parse;
     Route.too_small_message := Route.too_small_message env |}.

(** A form with the image first, then the given string fields. *)
Definition form (fields : list (string * string)) : Js.FormData :=
  ("image", Js.EFile png) :: map (fun kv => (fst kv, Js.EString (snd kv))) fields.

(** The same without an image. *)
Definition form_without_image (fields : list (string * string)) : Js.FormData :=
  map (fun kv => (fst kv, Js.EString (snd kv))) fields.

(** A multipart request carrying that form. *)
Definition post (fd : Js.FormData) : Route.Request :=
  {| Route.formData := inr fd |}.

(** A file of 8 MB and one byte; the form reads its size only. *)
Definition huge : Js.File :=
  {| Js.name := "huge.png"; Js.size := 8 * 1024 * 1024 + 1; Js.arrayBuffer := [] |}.

(** The server answers 200. *)
Definition fetch_ok : Uploader.fetch_fn :=
  fun _ _ _ => inr {| Uploader.ok := true; Uploader.status := 200;
                      Uploader.text := inr "{}" |}.

(** The form with a file chosen and the given fields. *)
Definition filled (f : Js.File) (fields : Uploader.FormFields) : Uploader.State :=
  Uploader.setFile (Some f) (Uploader.setFormState (fun _ => fields) Uploader.initial).

(** A post whose [status_code] is the empty string. *)
Definition blank_status_post : Posts.ScheduledPost :=
  {| Posts.id := "17900000000000001";
     Posts.caption := Some "Hello";
     Posts.media_url := None;
     Posts.thumbnail_url := None;
     Posts.status_code := Some "";
     Posts.status := Some "FINISHED";
     Posts.is_published := Some true;
     Posts.permalink := None |}.

(** A post with neither [status_code] nor [status]. *)
Definition pending_post : Posts.ScheduledPost :=
  {| Posts.id := "17900000000000002";
     Posts.caption := Some "Hello";
     Posts.media_url := None;
     Posts.thumbnail_url := None;
     Posts.status_code := None;
     Posts.status := None;
     Posts.is_published := Some false;
     Posts.permalink := None |}.

(** A configured dashboard whose posts arrive and whose quota fetch throws. *)
Definition dashboard_quota_down : Dashboard.Env :=
  {| Dashboard.validateInstagramConfig :=
       {| Dashboard.ready := true; Dashboard.missing := [] |};
     Dashboard.fetchScheduledPosts := inr [pending_post];
     Dashboard.fetchPublishingLimit := inl (Js.ErrorInstance "Graph API error 190");
     Dashboard.limit_rejects_first := false |}.

(** [c.repeat(n)] for a one-character string. *)
Fixpoint repeat_char (c : ascii) (n : nat) : string :=
  match n with
  | O => EmptyString
  | S k => String c (repeat_char c k)
  end.

End Sample.

(* ------------------------------------------------------------------ *)
(** ** [JSON.stringify] of the bodies the route answers with *)

Module Json.

(** The lower-case hexadecimal digit of [n mod 16]. *)
Definition hex_digit (n : nat) : ascii :=
  let d := Nat.modulo n 16 in
  ascii_of_nat (if Nat.ltb d 10 then 48 + d else 87 + d).

(** One code unit inside a JSON string: the quote and the backslash are
    escaped, the control characters below U+0020 are written [\b], [\t],
    [\n], [\f], [\r] or [\u00xx], anything else stands for itself. *)
Definition escape (c : ascii) : string :=
  let n := nat_of_ascii c in
  let backslash := ascii_of_nat 92 in
  if Nat.eqb n 34 then String backslash (String c EmptyString)
  else if Nat.eqb n 92 then String backslash (String c EmptyString)
  else if Nat.eqb n 8 then String backslash "b"
  else if Nat.eqb n 9 then String backslash "t"
  else if Nat.eqb n 10 then String backslash "n"
  else if Nat.eqb n 12 then String backslash "f"
  else if Nat.eqb n 13 then String backslash "r"
  else if Nat.ltb n 32 then
    String backslash
      (String "u" (String "0" (String "0"
         (String (hex_digit (Nat.div n 16)) (String (hex_digit n) EmptyString)))))
  else String c EmptyString.

Fixpoint escape_all (s : string) : string :=
  match s with
  | EmptyString => EmptyString
  | String c rest => escape c ++ escape_all rest
  end.

(** A string between double quotes. *)
Definition quote (s : string) : string :=
  String (ascii_of_nat 34) (escape_all s ++ String (ascii_of_nat 34) EmptyString).

(** [JSON.stringify(value)], without indentation.  A [JNum] is an integer
    below 10^21 in magnitude, which JavaScript writes in decimal. *)
Fixpoint stringify (value : Js.json) : string :=
  match value with
  | Js.JNull => "null"
  | Js.JBool true => "true"
  | Js.JBool false => "false"
  | Js.JNum n => Js.number_to_string n
  | Js.JStr s => quote s
  | Js.JObj fields =>
      "{" ++ (fix members (l : list (string * Js.json)) : string :=
                match l with
                | [] => EmptyString
                | [(k, v)] => quote k ++ ":" ++ stringify v
                | (k, v) :: rest => quote k ++ ":" ++ stringify v ++ "," ++ members rest
                end) fields
      ++ "}"
  end.

End Json.

(* ------------------------------------------------------------------ *)
(** ** The form talking to the route *)

Module Loop.

(** The request the route receives when the browser posts [body]. *)
Definition deliver (body : Js.FormData) : Route.Request :=
  {| Route.formData := inr body |}.

(** [response.ok]: a status from 200 to 299. *)
Definition ok_status (status : Z) : bool :=
  (200 <=? status) && (status <=? 299).

(** What [fetch("/api/instagram/publish", { method: "POST", body })]
    resolves with when this route is the server: the status of the
    [NextResponse] and, as text, its body through [JSON.stringify].  A
    handler that throws would be the framework's to answer; it is left as
    a rejection here. *)
Definition serve (env : Route.Env) : Uploader.fetch_fn :=
  fun _ _ body =>
    match Task.outcome (Route.POST env (deliver body)) with
    | inr response =>
        inr {| Uploader.ok := ok_status (Route.status response);
               Uploader.status := Route.status response;
               Uploader.text := inr (Json.stringify (Route.body response)) |}
    | inl e => inl e
    end.

End Loop.

(* ------------------------------------------------------------------ *)
(** ** Counting what a session did *)

Module Count.

Definition is_fetch (e : Uploader.effect) : bool :=
  match e with
  | Uploader.Fetch _ _ _ => true
  | Uploader.RouterRefresh => false
  end.

Definition is_refresh (e : Uploader.effect) : bool :=
  match e with
  | Uploader.Fetch _ _ _ => false
  | Uploader.RouterRefresh => true
  end.

Definition is_submit (a : Uploader.action) : bool :=
  match a with
  | Uploader.Submit => true
  | _ => false
  end.

(** The requests sent, the refreshes triggered, the submit clicks. *)
Definition fetches (out : list Uploader.effect) : nat :=
  length (filter is_fetch out).

Definition refreshes (out : list Uploader.effect) : nat :=
  length (filter is_refresh out).

Definition submits (actions : list Uploader.action) : nat :=
  length (filter is_submit actions).

End Count.


(* ------------------------------------------------------------------ *)
(** ** Tasks compose as a monad *)

Section TaskLaws.

Context {E A B C : Type}.

Lemma bind_ret_l (a : A) (k : A -> Task.t (E := E) B) :
  Task.bind (Task.ret a) k = k a.
Proof.
  unfold Task.bind, Task.ret. simpl. destruct (k a). reflexivity.
Qed.

Lemma bind_ret_r (m : Task.t (E := E) A) :
  Task.bind m Task.ret = m.
Proof.
  destruct m as [tr [e | a]]; unfold Task.bind, Task.ret; simpl;
    [reflexivity | rewrite app_nil_r; reflexivity].
Qed.

Lemma bind_assoc (m : Task.t (E := E) A) (k : A -> Task.t (E := E) B)
    (h : B -> Task.t (E := E) C) :
  Task.bind (Task.bind m k) h = Task.bind m (fun a => Task.bind (k a) h).
Proof.
  destruct m as [tr [e | a]]; unfold Task.bind; simpl; [reflexivity |].
  destruct (k a) as [tr' [e | b]]; simpl; [reflexivity |].
  rewrite app_assoc. reflexivity.
Qed.

(** A thrown value skips the rest and keeps the calls already made. *)
Lemma bind_throw (tr : list E) (e : Js.thrown) (k : A -> Task.t (E := E) B) :
  Task.bind (tr, inl e) k = (tr, inl e).
Proof. reflexivity. Qed.

(** [try] around a task that returns is that task. *)
Lemma try_catch_returns (tr : list E) (a : A)
    (h : Js.thrown -> Task.t (E := E) A) :
  Task.try_catch (tr, inr a) h = (tr, inr a).
Proof. reflexivity. Qed.

End TaskLaws.

(* ------------------------------------------------------------------ *)
(** ** The shape of [toISOString] *)

Example iso_of_epoch :
  JsDate.iso_of_time 0 = "1970-01-01T00:00:00.000Z".
Proof. reflexivity. Qed.

Example iso_before_epoch :
  JsDate.iso_of_time (-1) = "1969-12-31T23:59:59.999Z".
Proof. reflexivity. Qed.

Example iso_of_leap_day :
  JsDate.iso_of_time 951782400000 = "2000-02-29T00:00:00.000Z"
  /\ JsDate.iso_of_time 951868800000 = "2000-03-01T00:00:00.000Z".
Proof. split; reflexivity. Qed.

(** The two ends of the range of time values. *)
Example iso_of_extremes :
  JsDate.iso_of_time 8640000000000000 = "+275760-09-13T00:00:00.000Z"
  /\ JsDate.iso_of_time (-8640000000000000) = "-271821-04-20T00:00:00.000Z".
Proof. split; reflexivity. Qed.

Lemma length_append (s1 s2 : string) :
  String.length (s1 ++ s2) = (String.length s1 + String.length s2)%nat.
Proof.
  induction s1 as [| c s1 IH]; simpl; [reflexivity | rewrite IH; reflexivity].
Qed.

Lemma pad_length (width : nat) :
  forall n : Z, String.length (JsDate.pad width n) = width.
Proof.
  induction width as [| w IH]; intro n; simpl; [reflexivity |].
  rewrite length_append, IH. simpl. lia.
Qed.

(** An ISO string has 24 characters, or 27 with an expanded year. *)
Lemma iso_of_time_length (t : Z) :
  String.length (JsDate.iso_of_time t) = 24%nat
  \/ String.length (JsDate.iso_of_time t) = 27%nat.
Proof.
  unfold JsDate.iso_of_time.
  destruct (JsDate.civil (t / JsDate.msPerDay)) as [[y m] d].
  repeat rewrite length_append. repeat rewrite pad_length.
  unfold JsDate.year_string.
  destruct ((0 <=? y) && (y <=? 9999)).
  - left. rewrite pad_length. reflexivity.
  - right. rewrite length_append, pad_length.
    destruct (y <? 0); reflexivity.
Qed.

(* ------------------------------------------------------------------ *)
(** ** The publish route *)

(** A string is truthy exactly when it is not empty. *)
Lemma truthy_length (s : string) :
  Js.truthy s = true <-> (1 <= String.length s)%nat.
Proof.
  unfold Js.truthy. destruct s as [|c s]; simpl; split; intro H;
    try reflexivity; try discriminate; lia.
Qed.

Lemma truthy_empty : Js.truthy "" = false.
Proof. reflexivity. Qed.

(** [requestSchema] hands its input back, and passes exactly the payloads
    whose caption is not empty; [publishAt] and [locationId] raise no issue. *)
Lemma requestSchema_spec (env : Route.Env) (raw : Route.Payload) :
  Route.requestSchema env raw =
  if Nat.ltb (String.length (Route.p_caption raw)) 1
  then inl [Zod.mkIssue (Route.too_small_message env)]
  else inr raw.
Proof.
  unfold Route.requestSchema, Zod.min.
  destruct (Nat.ltb (String.length (Route.p_caption raw)) 1); reflexivity.
Qed.

Lemma requestSchema_success (env : Route.Env) (raw data : Route.Payload) :
  Route.requestSchema env raw = inr data ->
  data = raw /\ (1 <= String.length (Route.p_caption raw))%nat.
Proof.
  rewrite requestSchema_spec.
  destruct (Nat.ltb_spec (String.length (Route.p_caption raw)) 1) as [Hlt | Hge];
    intro H; inversion H; subst; split; trivial.
Qed.

Lemma requestSchema_passes (env : Route.Env) (raw : Route.Payload) :
  (1 <= String.length (Route.p_caption raw))%nat ->
  Route.requestSchema env raw = inr raw.
Proof.
  intro H. rewrite requestSchema_spec.
  destruct (Nat.ltb_spec (String.length (Route.p_caption raw)) 1);
    [lia | reflexivity].
Qed.

(** The fallback of [issues[0]?.message ?? ...] is never reached: a failed
    parse has a first issue. *)
Lemma first_message_of_failure {A : Type} (issues found : list Zod.issue)
    (data : A) (fallback : string) :
  Zod.finish issues data = inl found ->
  exists i rest, found = i :: rest /\ Zod.first_message found fallback = Zod.message i.
Proof.
  destruct issues as [|i rest]; simpl; intro H; inversion H; subst.
  exists i, rest. split; reflexivity.
Qed.

(** Splits a conjunction of cases, then closes each case from the
    equations on the outcomes it assumes. *)
Ltac by_outcomes :=
  repeat apply conj; intros; simpl;
  repeat apply conj; intros; simpl;
  repeat apply conj; intros; simpl;
  try congruence; try lia; eauto.

(** Deleting one name leaves the entries of the others, and none of its own. *)
Lemma get_delete_other (fd : Js.FormData) (k k' : string) :
  k <> k' -> Js.get (Js.delete fd k) k' = Js.get fd k'.
Proof.
  intro Hne. induction fd as [| [n v] rest IH]; simpl; [reflexivity |].
  destruct (String.eqb_spec n k) as [-> | Hnk]; simpl.
  - destruct (String.eqb_spec k k') as [Heq | _]; [contradiction | exact IH].
  - destruct (String.eqb n k'); [reflexivity | exact IH].
Qed.

Lemma get_delete_same (fd : Js.FormData) (k : string) :
  Js.get (Js.delete fd k) k = None.
Proof.
  induction fd as [| [n v] rest IH]; simpl; [reflexivity |].
  destruct (String.eqb_spec n k) as [-> | Hnk]; simpl; [exact IH |].
  destruct (String.eqb_spec n k) as [Heq | _]; [contradiction | exact IH].
Qed.

Section Configured.

(** A request whose configuration loads and whose body parses as a form. *)
Variables (env : Route.Env) (request : Route.Request).
Variables (config : Route.Config) (fd : Js.FormData).
Hypothesis Hconfig : Route.getInstagramConfig env = inr config.
Hypothesis Hform : Route.formData request = inr fd.

(** C2.  With a loadable configuration, a request whose [image] field is
    absent or is a string is answered 400 [{ error: "Image file is
    required." }]; the only call made is the Cloudinary configuration:
    nothing is uploaded and nothing is scheduled. *)
Theorem publish_requires_image_file :
  (Js.get fd "image" = None \/ exists s, Js.get fd "image" = Some (Js.EString s)) ->
  Task.outcome (Route.POST env request)
  = inr {| Route.body := Route.error_body "Image file is required.";
           Route.status := 400 |}
  /\ Task.trace (Route.POST env request) = [Route.configure config]
  /\ Route.uploads (Task.trace (Route.POST env request)) = []
  /\ Route.schedules (Task.trace (Route.POST env request)) = [].
Proof.
  intro Himg.
  assert (Hnone : Js.as_file (Js.get fd "image") = None)
    by (destruct Himg as [-> | [s ->]]; reflexivity).
  unfold Route.POST. rewrite Hconfig.
  unfold Task.bind at 1. simpl.
  unfold Task.bind at 1. rewrite Hform. simpl.
  rewrite Hnone. repeat split.
Qed.

Section WithImage.

Variable image : Js.File.
Hypothesis Himage : Js.as_file (Js.get fd "image") = Some image.

(** C4 (amended).  With a loadable configuration and a file image, a
    request whose [caption] field is absent, is not a string or is the empty
    string is answered 400 with the message of the schema's first issue;
    nothing is uploaded and nothing is scheduled. *)
Theorem publish_rejects_empty_caption :
  (forall s, Js.get fd "caption" = Some (Js.EString s) -> s = "") ->
  Task.outcome (Route.POST env request)
  = inr {| Route.body := Route.error_body (Route.too_small_message env);
           Route.status := 400 |}
  /\ Task.trace (Route.POST env request) = [Route.configure config]
  /\ Route.uploads (Task.trace (Route.POST env request)) = []
  /\ Route.schedules (Task.trace (Route.POST env request)) = [].
Proof.
  intro Hcap.
  assert (Hraw : Route.p_caption (Route.rawPayload fd) = "").
  { unfold Route.rawPayload, Js.string_or. simpl.
    destruct (Js.get fd "caption") as [[s | f] |]; auto. }
  unfold Route.POST. rewrite Hconfig.
  unfold Task.bind at 1. simpl.
  unfold Task.bind at 1. rewrite Hform. simpl.
  rewrite Himage, requestSchema_spec, Hraw. simpl. repeat split.
Qed.

Section Validated.

(** A request that also passes [requestSchema]. *)
Variable data : Route.Payload.
Hypothesis Hschema : Route.requestSchema env (Route.rawPayload fd) = inr data.

(** The argument [POST] builds for [scheduleInstagramPost]. *)
Let args (u : Route.UploadApiResponse) (iso : option string) : Route.ScheduleArgs :=
  {| Route.caption := Route.p_caption data;
     Route.imageUrl := Route.secure_url u;
     Route.publishAt := iso;
     Route.locationId := Route.p_locationId data |}.

Let sent : Route.event :=
  Route.UploadStream (Route.CLOUDINARY_UPLOAD_FOLDER config) "image"
    (Js.arrayBuffer image).

(** What [POST] does on a validated request, by the outcome of each step. *)
Lemma POST_validated :
  Route.POST env request =
  match Route.upload_outcome env config (Js.arrayBuffer image) with
  | inl e => ([Route.configure config; sent], inr (Route.failed e))
  | inr u =>
      match Route.publishAtIso env data with
      | inl e => ([Route.configure config; sent], inr (Route.failed e))
      | inr iso =>
          match Route.scheduleInstagramPost env (args u iso) with
          | inl e =>
              ([Route.configure config; sent; Route.ScheduleInstagramPost (args u iso)],
               inr (Route.failed e))
          | inr c =>
              ([Route.configure config; sent; Route.ScheduleInstagramPost (args u iso)],
               inr {| Route.body := Route.success_body c; Route.status := 200 |})
          end
      end
  end.
Proof.
  unfold Route.POST. rewrite Hconfig.
  unfold Task.bind at 1. simpl.
  unfold Task.bind at 1. rewrite Hform. simpl.
  rewrite Himage, Hschema.
  unfold Route.publish, Route.upload, Task.try_catch, Task.bind, Task.call,
    Task.lift, Task.ret, sent, args. simpl.
  destruct (Route.upload_outcome env config (Js.arrayBuffer image)) as [e | u];
    simpl; [reflexivity |].
  destruct (Route.publishAtIso env data) as [e | iso]; simpl; [reflexivity |].
  destruct (Route.scheduleInstagramPost env _) as [e | c]; reflexivity.
Qed.

(** C1 (amended).  On a request that passes the configuration, image and
    schema checks, [POST] never throws and answers 200 or 500.  Its calls
    are, in order: the Cloudinary configuration, one upload of the image
    bytes, then at most one [scheduleInstagramPost].  If the upload throws,
    or the conversion of a non-empty [publishAt] throws, nothing is
    scheduled and the answer is the 500 of the thrown value.  Otherwise
    [scheduleInstagramPost] is called exactly once, with the [secure_url] of
    the upload; if it throws the answer is the 500 of the thrown value, else
    it is 200 with [{ success: true, creation }].  The 500 body carries the
    thrown value's message when that value is an [Error], and
    ["Upload request failed."] when it is not. *)
Theorem publish_upload_then_schedule :
  let r := Route.POST env request in
  (exists resp, Task.outcome r = inr resp
                /\ (Route.status resp = 200 \/ Route.status resp = 500))
  /\ Task.trace r
     = Route.configure config :: sent
       :: map Route.ScheduleInstagramPost (Route.schedules (Task.trace r))
  /\ Route.uploads (Task.trace r) = [Js.arrayBuffer image]
  /\ (length (Route.schedules (Task.trace r)) <= 1)%nat
  /\ (forall e,
        Route.upload_outcome env config (Js.arrayBuffer image) = inl e ->
        Task.outcome r = inr (Route.failed e)
        /\ Route.schedules (Task.trace r) = [])
  /\ (forall u,
        Route.upload_outcome env config (Js.arrayBuffer image) = inr u ->
        (forall e,
           Route.publishAtIso env data = inl e ->
           Task.outcome r = inr (Route.failed e)
           /\ Route.schedules (Task.trace r) = [])
        /\ (forall iso,
              Route.publishAtIso env data = inr iso ->
              Route.schedules (Task.trace r) = [args u iso]
              /\ (forall e,
                    Route.scheduleInstagramPost env (args u iso) = inl e ->
                    Task.outcome r = inr (Route.failed e))
              /\ (forall c,
                    Route.scheduleInstagramPost env (args u iso) = inr c ->
                    Task.outcome r
                    = inr {| Route.body := Route.success_body c;
                             Route.status := 200 |})))
  /\ (forall m, Route.failed (Js.ErrorInstance m)
                = {| Route.body := Route.error_body m; Route.status := 500 |})
  /\ (forall m, Route.failed (Js.NotAnError m)
                = {| Route.body := Route.error_body "Upload request failed.";
                     Route.status := 500 |}).
Proof.
  intro r. subst r. rewrite POST_validated.
  destruct (Route.upload_outcome env config (Js.arrayBuffer image)) as [e | u];
    [| destruct (Route.publishAtIso env data) as [e | iso];
       [| destruct (Route.scheduleInstagramPost env (args u iso)) as [e | c] eqn:Hs]];
    by_outcomes.
Qed.

(** The conversion of [publishAt], by what the form holds under that name. *)
Lemma publishAtIso_cases :
  (forall s, Js.get fd "publishAt" <> Some (Js.EString s)) \/
  Js.get fd "publishAt" = Some (Js.EString "") ->
  Route.publishAtIso env data = inr None.
Proof.
  destruct (requestSchema_success _ _ _ Hschema) as [-> _].
  unfold Route.publishAtIso, Route.rawPayload, Js.string_or. simpl.
  intros [Habs | ->]; [| reflexivity].
  destruct (Js.get fd "publishAt") as [[s | f] |]; try reflexivity.
  exfalso. apply (Habs s). reflexivity.
Qed.

Lemma publishAtIso_string (s : string) :
  Js.get fd "publishAt" = Some (Js.EString s) -> s <> "" ->
  Route.publishAtIso env data
  = match Route.Date_parse env s with
    | Some t => inr (Some (JsDate.iso_of_time t))
    | None => inl (Js.ErrorInstance "Invalid time value")
    end.
Proof.
  destruct (requestSchema_success _ _ _ Hschema) as [-> _].
  unfold Route.publishAtIso, Route.rawPayload, Js.string_or. simpl.
  intros -> Hne. destruct s as [| c s]; [contradiction |]. simpl.
  destruct (Route.Date_parse env (String c s)); reflexivity.
Qed.

(** C3 (amended).  On a validated request whose upload succeeds:
    - when [publishAt] is absent (or not a string) or is the empty string,
      [scheduleInstagramPost] is called once with [publishAt] undefined;
    - when it is a non-empty string that the engine parses to a time value,
      [scheduleInstagramPost] is called once with the [toISOString]
      rendering of that time value: the instant in UTC, a string of 24 or
      27 characters, hence never the submitted string when that one has
      another length (a [datetime-local] value has 16);
    - when it is a non-empty string that does not parse, nothing is
      scheduled and the answer is 500 [{ error: "Invalid time value" }];
    - the caption is the [caption] field, the URL the upload's
      [secure_url], and [locationId] the [locationId] field when it is a
      string (an empty one too), otherwise null. *)
Theorem schedule_receives_converted_publishAt (u : Route.UploadApiResponse) :
  Route.upload_outcome env config (Js.arrayBuffer image) = inr u ->
  let r := Route.POST env request in
  let call (iso : option string) : Route.ScheduleArgs :=
    {| Route.caption := Js.string_or (Js.get fd "caption") (fun s => s) "";
       Route.imageUrl := Route.secure_url u;
       Route.publishAt := iso;
       Route.locationId := Js.string_or (Js.get fd "locationId") Some None |} in
  ((forall s, Js.get fd "publishAt" <> Some (Js.EString s)) ->
   Route.schedules (Task.trace r) = [call None])
  /\ (Js.get fd "publishAt" = Some (Js.EString "") ->
      Route.schedules (Task.trace r) = [call None])
  /\ (forall s t,
        Js.get fd "publishAt" = Some (Js.EString s) -> s <> "" ->
        Route.Date_parse env s = Some t ->
        Route.schedules (Task.trace r) = [call (Some (JsDate.iso_of_time t))])
  /\ (forall s,
        Js.get fd "publishAt" = Some (Js.EString s) -> s <> "" ->
        Route.Date_parse env s = None ->
        Route.schedules (Task.trace r) = []
        /\ Task.outcome r
           = inr {| Route.body := Route.error_body "Invalid time value";
                    Route.status := 500 |})
  /\ (forall s t,
        Route.Date_parse env s = Some t ->
        String.length s <> 24%nat -> String.length s <> 27%nat ->
        JsDate.iso_of_time t <> s)
  /\ (forall l, Js.get fd "locationId" = Some (Js.EString l) ->
                Route.locationId (call None) = Some l)
  /\ ((forall l, Js.get fd "locationId" <> Some (Js.EString l)) ->
      Route.locationId (call None) = None).
Proof.
  intros Hup r call. subst r.
  assert (Hs : forall iso, Route.publishAtIso env data = inr iso ->
               Route.schedules (Task.trace (Route.POST env request)) = [call iso]).
  { intros iso Hiso. rewrite POST_validated, Hup, Hiso.
    unfold args, call. destruct (requestSchema_success _ _ _ Hschema) as [-> _].
    destruct (Route.scheduleInstagramPost env _); reflexivity. }
  repeat apply conj.
  - intro Habs. apply Hs, publishAtIso_cases. left. exact Habs.
  - intro Hempty. apply Hs, publishAtIso_cases. right. exact Hempty.
  - intros s t Hget Hne Hparse. apply Hs.
    rewrite (publishAtIso_string s Hget Hne), Hparse. reflexivity.
  - intros s Hget Hne Hparse.
    rewrite POST_validated, Hup, (publishAtIso_string s Hget Hne), Hparse.
    split; reflexivity.
  - intros s t _ H24 H27 Heq.
    destruct (iso_of_time_length t) as [H | H]; rewrite Heq in H; contradiction.
  - intros l Hl. simpl. rewrite Hl. reflexivity.
  - intro Hnone. simpl. destruct (Js.get fd "locationId") as [[l | f] |];
      try reflexivity. exfalso. apply (Hnone l). reflexivity.
Qed.

End Validated.

End WithImage.

End Configured.

(** C2 at a request that carries a caption and no image. *)
Lemma publish_requires_image_file_witness :
  let fd := Sample.form_without_image [("caption", "Hello")] in
  Js.get fd "image" = None
  /\ Task.outcome (Route.POST Sample.env (Sample.post fd))
     = inr {| Route.body := Js.JObj [("error", Js.JStr "Image file is required.")];
              Route.status := 400 |}
  /\ Task.trace (Route.POST Sample.env (Sample.post fd))
     = [Route.CloudinaryConfig "demo" "key" "secret"].
Proof.
  intro fd. split; [reflexivity |].
  destruct (publish_requires_image_file Sample.env (Sample.post fd) Sample.config fd
              eq_refl eq_refl (or_introl eq_refl)) as (Hout & Htrace & _).
  split; [exact Hout | exact Htrace].
Defined.

(** C1 as stated fails.  The request below passes the three checks, its
    upload succeeds and no schedule call can throw; still the answer is 500
    and [scheduleInstagramPost] is never called, because the conversion of
    [publishAt] throws.  And when Cloudinary rejects with a plain object,
    the 500 body is the fixed text, not that object's message. *)
Lemma publish_unparsable_date_counterexample :
  let fd := Sample.form [("caption", "Hello"); ("publishAt", "not-a-date")] in
  let r := Route.POST Sample.env (Sample.post fd) in
  Route.getInstagramConfig Sample.env = inr Sample.config
  /\ Js.as_file (Js.get fd "image") = Some Sample.png
  /\ Route.requestSchema Sample.env (Route.rawPayload fd) = inr (Route.rawPayload fd)
  /\ Route.upload_outcome Sample.env Sample.config (Js.arrayBuffer Sample.png)
     = inr Sample.hosted
  /\ (forall a, Route.scheduleInstagramPost Sample.env a = inr Sample.created)
  /\ Task.outcome r
     = inr {| Route.body := Js.JObj [("error", Js.JStr "Invalid time value")];
              Route.status := 500 |}
  /\ Route.schedules (Task.trace r) = []
  /\ Route.upload_outcome Sample.env_upload_fails Sample.config
       (Js.arrayBuffer Sample.png)
     = inl (Js.NotAnError (Some "Invalid image file"))
  /\ Task.outcome (Route.POST Sample.env_upload_fails
                     (Sample.post (Sample.form [("caption", "Hello")])))
     = inr {| Route.body := Js.JObj [("error", Js.JStr "Upload request failed.")];
              Route.status := 500 |}.
Proof.
  repeat apply conj; reflexivity.
Qed.

(** C1 (amended) at a plain request: 200, one upload, one schedule call
    with the uploaded URL. *)
Lemma publish_upload_then_schedule_witness :
  let fd := Sample.form [("caption", "Hello")] in
  let r := Route.POST Sample.env (Sample.post fd) in
  (Route.getInstagramConfig Sample.env = inr Sample.config
   /\ Route.formData (Sample.post fd) = inr fd
   /\ Js.as_file (Js.get fd "image") = Some Sample.png
   /\ Route.requestSchema Sample.env (Route.rawPayload fd) = inr (Route.rawPayload fd))
  /\ Task.outcome r
     = inr {| Route.body := Route.success_body Sample.created; Route.status := 200 |}
  /\ Route.schedules (Task.trace r)
     = [{| Route.caption := "Hello";
           Route.imageUrl := Route.secure_url Sample.hosted;
           Route.publishAt := None;
           Route.locationId := None |}].
Proof.
  intros fd r. split; [repeat split |].
  destruct (publish_upload_then_schedule Sample.env (Sample.post fd) Sample.config fd
              eq_refl eq_refl Sample.png eq_refl (Route.rawPayload fd) eq_refl)
    as (_ & _ & _ & _ & _ & Hok & _).
  destruct (Hok Sample.hosted eq_refl) as [_ Hiso].
  destruct (Hiso None eq_refl) as (Hsch & _ & Hdone).
  split; [exact (Hdone Sample.created eq_refl) | exact Hsch].
Defined.

(** C3 as stated fails: a [publishAt] that is present but empty reaches
    [scheduleInstagramPost] as undefined; a [datetime-local] value reaches
    it as another string, the UTC rendering of the parsed instant; one that
    does not parse reaches it not at all. *)
Lemma publishAt_not_passed_through_counterexample :
  let sent (publishAt : string) :=
    Route.schedules
      (Task.trace
         (Route.POST Sample.env
            (Sample.post (Sample.form [("caption", "Hello");
                                       ("publishAt", publishAt)])))) in
  map Route.publishAt (sent "") = [None]
  /\ map Route.publishAt (sent "2025-01-01T10:00") = [Some "2025-01-01T10:00:00.000Z"]
  /\ sent "not-a-date" = [].
Proof.
  repeat apply conj; reflexivity.
Qed.

(** C3 (amended) at a request scheduled with a [datetime-local] value and
    an empty location. *)
Lemma schedule_receives_converted_publishAt_witness :
  let fd := Sample.form [("caption", "Hello"); ("publishAt", "2025-01-01T10:00");
                         ("locationId", "")] in
  (Route.requestSchema Sample.env (Route.rawPayload fd) = inr (Route.rawPayload fd)
   /\ Route.upload_outcome Sample.env Sample.config (Js.arrayBuffer Sample.png)
      = inr Sample.hosted
   /\ Route.Date_parse Sample.env "2025-01-01T10:00" = Some 1735725600000)
  /\ Route.schedules (Task.trace (Route.POST Sample.env (Sample.post fd)))
     = [{| Route.caption := "Hello";
           Route.imageUrl := Route.secure_url Sample.hosted;
           Route.publishAt := Some "2025-01-01T10:00:00.000Z";
           Route.locationId := Some "" |}].
Proof.
  intro fd. split; [repeat split |].
  destruct (schedule_receives_converted_publishAt Sample.env (Sample.post fd)
              Sample.config fd eq_refl eq_refl Sample.png eq_refl
              (Route.rawPayload fd) eq_refl Sample.hosted eq_refl)
    as (_ & _ & Hparsed & _).
  apply (Hparsed "2025-01-01T10:00" 1735725600000 eq_refl); [discriminate | reflexivity].
Defined.

(** C4 as stated fails.  A caption of 2201 characters passes the route's
    schema and the request is answered 200; and when the configuration does
    not load, a request with an empty caption is answered 500, not 400. *)
Lemma publish_accepts_long_caption_counterexample :
  let long := Sample.repeat_char "a" 2201 in
  String.length long = 2201%nat
  /\ Task.outcome (Route.POST Sample.env
                     (Sample.post (Sample.form [("caption", long)])))
     = inr {| Route.body := Route.success_body Sample.created; Route.status := 200 |}
  /\ Task.outcome (Route.POST Sample.env_unconfigured
                     (Sample.post (Sample.form [("caption", "")])))
     = inr {| Route.body := Js.JObj [("error", Js.JStr "Missing INSTAGRAM_ACCESS_TOKEN")];
              Route.status := 500 |}.
Proof.
  vm_compute. repeat apply conj; reflexivity.
Qed.

(** C4 (amended) at a request with an image and an empty caption. *)
Lemma publish_rejects_empty_caption_witness :
  let fd := Sample.form [("caption", "")] in
  (Js.as_file (Js.get fd "image") = Some Sample.png
   /\ Js.get fd "caption" = Some (Js.EString ""))
  /\ Task.outcome (Route.POST Sample.env (Sample.post fd))
     = inr {| Route.body :=
                Js.JObj [("error",
                          Js.JStr "String must contain at least 1 character(s)")];
              Route.status := 400 |}.
Proof.
  intro fd. split; [repeat split |].
  refine (proj1 (publish_rejects_empty_caption Sample.env (Sample.post fd)
                   Sample.config fd eq_refl eq_refl Sample.png eq_refl _)).
  intros s Hs. inversion Hs. reflexivity.
Defined.

(** The payload of a form without its [publishAt] entries. *)
Lemma rawPayload_delete_publishAt (fd : Js.FormData) :
  Route.rawPayload (Js.delete fd "publishAt")
  = {| Route.p_caption := Route.p_caption (Route.rawPayload fd);
       Route.p_publishAt := None;
       Route.p_locationId := Route.p_locationId (Route.rawPayload fd) |}.
Proof.
  unfold Route.rawPayload. simpl.
  rewrite get_delete_same.
  rewrite !get_delete_other by discriminate. reflexivity.
Qed.

(** C10.  When the [publishAt] field is present as the empty string (and
    the request is otherwise valid), [requestSchema] succeeds, the
    conversion yields undefined without throwing, no call of
    [scheduleInstagramPost] carries a [publishAt], a successful upload is
    followed by exactly one such call, and the whole run (calls and answer)
    is the run on the same form without the [publishAt] field. *)
Theorem empty_publishAt_is_absent
    (env : Route.Env) (request : Route.Request) (config : Route.Config)
    (fd : Js.FormData) (image : Js.File) :
  Route.getInstagramConfig env = inr config ->
  Route.formData request = inr fd ->
  Js.as_file (Js.get fd "image") = Some image ->
  (1 <= String.length (Route.p_caption (Route.rawPayload fd)))%nat ->
  Js.get fd "publishAt" = Some (Js.EString "") ->
  let r := Route.POST env request in
  Route.requestSchema env (Route.rawPayload fd) = inr (Route.rawPayload fd)
  /\ Route.publishAtIso env (Route.rawPayload fd) = inr None
  /\ (forall a, In a (Route.schedules (Task.trace r)) -> Route.publishAt a = None)
  /\ (forall u,
        Route.upload_outcome env config (Js.arrayBuffer image) = inr u ->
        Route.schedules (Task.trace r)
        = [{| Route.caption := Route.p_caption (Route.rawPayload fd);
              Route.imageUrl := Route.secure_url u;
              Route.publishAt := None;
              Route.locationId := Route.p_locationId (Route.rawPayload fd) |}])
  /\ r = Route.POST env {| Route.formData := inr (Js.delete fd "publishAt") |}.
Proof.
  intros Hconfig Hform Himage Hcap Hempty r. subst r.
  assert (Hschema : Route.requestSchema env (Route.rawPayload fd)
                    = inr (Route.rawPayload fd))
    by (apply requestSchema_passes; exact Hcap).
  assert (Hiso : Route.publishAtIso env (Route.rawPayload fd) = inr None).
  { apply (publishAtIso_cases env fd (Route.rawPayload fd) Hschema).
    right. exact Hempty. }
  rewrite (POST_validated env request config fd Hconfig Hform image Himage
             (Route.rawPayload fd) Hschema), Hiso.
  repeat apply conj; trivial.
  - destruct (Route.upload_outcome env config (Js.arrayBuffer image)) as [e | u];
      simpl; [tauto |].
    destruct (Route.scheduleInstagramPost env _); simpl;
      intros a [<- | []]; reflexivity.
  - intros u ->. destruct (Route.scheduleInstagramPost env _); reflexivity.
  - assert (Himage' : Js.as_file (Js.get (Js.delete fd "publishAt") "image")
                      = Some image)
      by (rewrite get_delete_other by discriminate; exact Himage).
    assert (Hschema' : Route.requestSchema env
                         (Route.rawPayload (Js.delete fd "publishAt"))
                       = inr (Route.rawPayload (Js.delete fd "publishAt")))
      by (apply requestSchema_passes; rewrite rawPayload_delete_publishAt;
          exact Hcap).
    rewrite (POST_validated env {| Route.formData := inr (Js.delete fd "publishAt") |}
               config
               (Js.delete fd "publishAt") Hconfig eq_refl image Himage'
               (Route.rawPayload (Js.delete fd "publishAt")) Hschema').
    rewrite rawPayload_delete_publishAt. reflexivity.
Qed.

(** C10 at a request whose [publishAt] field is the empty string. *)
Lemma empty_publishAt_is_absent_witness :
  let fd := Sample.form [("caption", "Hello"); ("publishAt", "")] in
  let r := Route.POST Sample.env (Sample.post fd) in
  (Js.get fd "publishAt" = Some (Js.EString "")
   /\ (1 <= String.length (Route.p_caption (Route.rawPayload fd)))%nat)
  /\ Route.schedules (Task.trace r)
     = [{| Route.caption := "Hello";
           Route.imageUrl := Route.secure_url Sample.hosted;
           Route.publishAt := None;
           Route.locationId := None |}]
  /\ r = Route.POST Sample.env (Sample.post (Sample.form [("caption", "Hello")])).
Proof.
  intros fd r. split; [split; [reflexivity | simpl; lia] |].
  assert (Hcap : (1 <= String.length (Route.p_caption (Route.rawPayload fd)))%nat)
    by (simpl; lia).
  destruct (empty_publishAt_is_absent Sample.env (Sample.post fd) Sample.config fd
              Sample.png eq_refl eq_refl eq_refl Hcap eq_refl)
    as (_ & _ & _ & Hsch & Hsame).
  split; [exact (Hsch Sample.hosted eq_refl) | exact Hsame].
Defined.

(* ------------------------------------------------------------------ *)
(** ** The upload form *)

(** The size check in integers: more than 8 * 1024 * 1024 bytes. *)
Lemma too_large_spec (f : Js.File) :
  Uploader.too_large f = true <-> 8 * 1024 * 1024 < Js.size f.
Proof.
  unfold Uploader.too_large, Uploader.megabytes, Uploader.MAX_FILE_SIZE_MB.
  destruct (Qlt_le_dec _ _) as [Hlt | Hle].
  - split; [intros _ | reflexivity].
    unfold Qlt in Hlt. simpl in Hlt. lia.
  - split; [discriminate |]. intro H.
    unfold Qle in Hle. simpl in Hle. lia.
Qed.

Lemma too_large_false (f : Js.File) :
  Js.size f <= 8 * 1024 * 1024 -> Uploader.too_large f = false.
Proof.
  intro H. destruct (Uploader.too_large f) eqn:E; [| reflexivity].
  apply too_large_spec in E. lia.
Qed.

(** [formSchema] by the length of the caption alone. *)
Lemma formSchema_spec (input : Uploader.FormFields) :
  Uploader.formSchema input =
  if Nat.ltb (String.length (Uploader.caption input)) 1
  then inl [Zod.mkIssue "Caption is required"]
  else if Nat.ltb 2200 (String.length (Uploader.caption input))
       then inl [Zod.mkIssue "Instagram captions are limited to 2,200 characters."]
       else inr {| Uploader.caption := Uploader.caption input;
                   Uploader.publishAt := Uploader.transform (Uploader.publishAt input);
                   Uploader.mode := Uploader.mode input;
                   Uploader.locationId := Uploader.transform (Uploader.locationId input) |}.
Proof.
  unfold Uploader.formSchema, Zod.min, Zod.max.
  destruct (Nat.ltb_spec (String.length (Uploader.caption input)) 1);
    destruct (Nat.ltb_spec 2200 (String.length (Uploader.caption input)));
    try reflexivity; lia.
Qed.

(** The transforms of the schema turn an unset or empty field into
    undefined and keep any other. *)
Lemma transform_spec (v : option string) :
  Uploader.transform v = if Js.truthy_opt v then v else None.
Proof.
  destruct v as [[| c s] |]; reflexivity.
Qed.

(** The outgoing form carries a [publishAt] entry exactly in scheduled
    mode with a non-empty publish time. *)
Lemma outgoing_has_publishAt (f : Js.File) (data : Uploader.FormFields) :
  Js.has (Uploader.outgoing f data) "publishAt"
  = match Uploader.mode data with
    | Uploader.scheduled => Js.truthy_opt (Uploader.publishAt data)
    | Uploader.immediate => false
    end.
Proof.
  unfold Uploader.outgoing, Js.append, Js.has.
  destruct (Uploader.locationId data) as [l |]; [destruct (Js.truthy l) |];
    destruct (Uploader.mode data);
    destruct (Uploader.publishAt data) as [q |]; try reflexivity;
    simpl; destruct (Js.truthy q); reflexivity.
Qed.

Section Submission.

Variable fetch : Uploader.fetch_fn.

(** The request [handleSubmit] sends for a file and parsed fields. *)
Let request (f : Js.File) (data : Uploader.FormFields) : Uploader.effect :=
  Uploader.Fetch "/api/instagram/publish" "POST" (Uploader.outgoing f data).

(** Once the three checks pass, exactly one request goes out, followed by
    a refresh when the response is [ok]. *)
Lemma handleSubmit_valid (st : Uploader.State) (f : Js.File)
    (data : Uploader.FormFields) :
  Uploader.file st = Some f ->
  Uploader.too_large f = false ->
  Uploader.formSchema (Uploader.formState st) = inr data ->
  snd (Uploader.handleSubmit fetch st)
  = request f data
    :: match fetch "/api/instagram/publish" "POST" (Uploader.outgoing f data) with
       | inr response => if Uploader.ok response then [Uploader.RouterRefresh] else []
       | inl _ => []
       end.
Proof.
  intros Hfile Hsize Hparse.
  unfold Uploader.handleSubmit. rewrite Hfile, Hsize, Hparse.
  unfold Uploader.attempt, Task.try_catch, Task.bind, Task.call, Task.lift,
    Task.throw, Task.ret, Task.trace, request. simpl.
  destruct (fetch _ _ _) as [e | response]; simpl; [reflexivity |].
  destruct (Uploader.ok response); simpl; [reflexivity |].
  destruct (Uploader.text response); reflexivity.
Qed.

(** Whatever the checks say, [handleSubmit] sends at most the request built
    from the selected file and the parsed fields. *)
Lemma handleSubmit_requests (st : Uploader.State) (url method : string)
    (body : Js.FormData) :
  In (Uploader.Fetch url method body) (snd (Uploader.handleSubmit fetch st)) ->
  exists f data,
    Uploader.file st = Some f
    /\ Uploader.too_large f = false
    /\ Uploader.formSchema (Uploader.formState st) = inr data
    /\ body = Uploader.outgoing f data.
Proof.
  destruct (Uploader.file st) as [f |] eqn:Hfile;
    [| unfold Uploader.handleSubmit; rewrite Hfile; simpl; tauto].
  destruct (Uploader.too_large f) eqn:Hsize;
    [unfold Uploader.handleSubmit; rewrite Hfile, Hsize; simpl; tauto |].
  destruct (Uploader.formSchema (Uploader.formState st)) as [issues | data] eqn:Hparse;
    [unfold Uploader.handleSubmit; rewrite Hfile, Hsize, Hparse; simpl; tauto |].
  rewrite (handleSubmit_valid st f data Hfile Hsize Hparse).
  intros [Heq | Hin].
  - inversion Heq; subst. exists f, data. auto.
  - destruct (fetch _ _ _) as [e | response]; [destruct Hin |].
    destruct (Uploader.ok response); [| destruct Hin].
    destruct Hin as [Heq | []]. discriminate Heq.
Qed.

(** [handleSubmit] leaves the fields as they were or resets them. *)
Lemma handleSubmit_formState (st : Uploader.State) :
  Uploader.formState (fst (Uploader.handleSubmit fetch st)) = Uploader.formState st
  \/ Uploader.formState (fst (Uploader.handleSubmit fetch st))
     = Uploader.formState Uploader.initial.
Proof.
  unfold Uploader.handleSubmit.
  destruct (Uploader.file st) as [f |]; [| left; reflexivity].
  destruct (Uploader.too_large f); [left; reflexivity |].
  destruct (Uploader.formSchema (Uploader.formState st)) as [issues | data];
    [left; reflexivity |].
  unfold Uploader.attempt, Task.try_catch, Task.bind, Task.call, Task.lift,
    Task.throw, Task.ret, Task.outcome. simpl.
  destruct (fetch _ _ _) as [e | response]; simpl; [left; reflexivity |].
  destruct (Uploader.ok response); simpl; [right; reflexivity |].
  destruct (Uploader.text response); left; reflexivity.
Qed.

(** In immediate mode no publish time is stored: true of the initial state
    and kept by every interaction. *)
Lemma step_keeps_immediate_clear (a : Uploader.action) (st : Uploader.State) :
  (Uploader.mode (Uploader.formState st) = Uploader.immediate ->
   Uploader.publishAt (Uploader.formState st) = None) ->
  Uploader.mode (Uploader.formState (fst (Uploader.step fetch a st)))
  = Uploader.immediate ->
  Uploader.publishAt (Uploader.formState (fst (Uploader.step fetch a st))) = None.
Proof.
  intro Hinv. destruct a; try solve [simpl; auto].
  - simpl. discriminate.
  - simpl. destruct (Uploader.mode (Uploader.formState st)) eqn:Hmode; simpl; auto.
    rewrite Hmode. discriminate.
  - unfold Uploader.step. destruct (Uploader.isSubmitting st); [exact Hinv |].
    destruct (handleSubmit_formState st) as [-> | ->]; auto.
Qed.

Lemma run_keeps_immediate_clear (actions : list Uploader.action) :
  forall st : Uploader.State,
  (Uploader.mode (Uploader.formState st) = Uploader.immediate ->
   Uploader.publishAt (Uploader.formState st) = None) ->
  Uploader.mode (Uploader.formState (fst (Uploader.run fetch actions st)))
  = Uploader.immediate ->
  Uploader.publishAt (Uploader.formState (fst (Uploader.run fetch actions st))) = None.
Proof.
  induction actions as [| a rest IH]; intros st Hinv; simpl; [exact Hinv |].
  pose proof (step_keeps_immediate_clear a st Hinv) as Hstep.
  destruct (Uploader.step fetch a st) as [st1 out1]. simpl in Hstep.
  specialize (IH st1 Hstep).
  destruct (Uploader.run fetch rest st1) as [st2 out2]. exact IH.
Qed.

End Submission.

(** C5.  [handleSubmit] checks, in this order and stopping at the first
    failure: that a file is selected ("Please select an image to upload."),
    that it is not larger than 8 MB ("Image must be smaller than 8MB."),
    then the schema (an empty caption: "Caption is required"; one longer
    than 2200 characters: the limit message).  On each failure the state
    only gains that error message and nothing is sent; when all three pass,
    the first thing [handleSubmit] does to the outside is the request. *)
Theorem submit_validation_short_circuits
    (fetch : Uploader.fetch_fn) (st : Uploader.State) :
  (Uploader.file st = None ->
   Uploader.handleSubmit fetch st
   = (Uploader.setError (Some "Please select an image to upload.") st, []))
  /\ (forall f,
        Uploader.file st = Some f -> 8 * 1024 * 1024 < Js.size f ->
        Uploader.handleSubmit fetch st
        = (Uploader.setError (Some "Image must be smaller than 8MB.") st, []))
  /\ (forall f,
        Uploader.file st = Some f -> Js.size f <= 8 * 1024 * 1024 ->
        String.length (Uploader.caption (Uploader.formState st)) = 0%nat ->
        Uploader.handleSubmit fetch st
        = (Uploader.setError (Some "Caption is required") st, []))
  /\ (forall f,
        Uploader.file st = Some f -> Js.size f <= 8 * 1024 * 1024 ->
        (2200 < String.length (Uploader.caption (Uploader.formState st)))%nat ->
        Uploader.handleSubmit fetch st
        = (Uploader.setError
             (Some "Instagram captions are limited to 2,200 characters.") st, []))
  /\ (forall f,
        Uploader.file st = Some f -> Js.size f <= 8 * 1024 * 1024 ->
        (1 <= String.length (Uploader.caption (Uploader.formState st)) <= 2200)%nat ->
        exists data rest,
          Uploader.formSchema (Uploader.formState st) = inr data
          /\ snd (Uploader.handleSubmit fetch st)
             = Uploader.Fetch "/api/instagram/publish" "POST"
                 (Uploader.outgoing f data) :: rest).
Proof.
  repeat apply conj.
  - intro Hfile. unfold Uploader.handleSubmit. rewrite Hfile. reflexivity.
  - intros f Hfile Hsize. apply too_large_spec in Hsize.
    unfold Uploader.handleSubmit. rewrite Hfile, Hsize. reflexivity.
  - intros f Hfile Hsize Hlen. apply too_large_false in Hsize.
    unfold Uploader.handleSubmit. rewrite Hfile, Hsize, formSchema_spec, Hlen.
    reflexivity.
  - intros f Hfile Hsize Hlen. apply too_large_false in Hsize.
    unfold Uploader.handleSubmit. rewrite Hfile, Hsize, formSchema_spec.
    destruct (Nat.ltb_spec (String.length (Uploader.caption (Uploader.formState st))) 1);
      [lia |].
    destruct (Nat.ltb_spec 2200 (String.length (Uploader.caption (Uploader.formState st))));
      [reflexivity | lia].
  - intros f Hfile Hsize Hlen. apply too_large_false in Hsize.
    assert (Hparse : exists data,
               Uploader.formSchema (Uploader.formState st) = inr data).
    { rewrite formSchema_spec.
      destruct (Nat.ltb_spec (String.length (Uploader.caption (Uploader.formState st))) 1);
        [lia |].
      destruct (Nat.ltb_spec 2200
                  (String.length (Uploader.caption (Uploader.formState st))));
        [lia | eauto]. }
    destruct Hparse as [data Hparse]. exists data.
    rewrite (handleSubmit_valid fetch st f data Hfile Hsize Hparse). eauto.
Qed.

(** C5 at a form holding a file of 8 MB and one byte and an empty caption:
    the size message wins, and nothing is sent. *)
Lemma submit_validation_short_circuits_witness :
  let st := Sample.filled Sample.huge (Uploader.formState Uploader.initial) in
  Uploader.handleSubmit Sample.fetch_ok st
  = (Uploader.setError (Some "Image must be smaller than 8MB.") st, []).
Proof.
  intro st.
  destruct (submit_validation_short_circuits Sample.fetch_ok st) as (_ & Hsize & _).
  apply (Hsize Sample.huge eq_refl). reflexivity.
Defined.

(** C6.  In immediate mode no request [handleSubmit] sends has a
    [publishAt] field, whatever publish time the state holds.  Clicking
    "Publish Now" sets the mode to immediate and clears the stored publish
    time, so that in every state reached from the initial one the mode is
    immediate only with no publish time stored; in particular a time entered
    in scheduled mode is gone, from the state and from the request, once the
    user has toggled back. *)
Theorem immediate_mode_sends_no_publishAt (fetch : Uploader.fetch_fn) :
  (forall st url method body,
     Uploader.mode (Uploader.formState st) = Uploader.immediate ->
     In (Uploader.Fetch url method body) (snd (Uploader.handleSubmit fetch st)) ->
     Js.has body "publishAt" = false)
  /\ (forall st,
        let st' := fst (Uploader.step fetch Uploader.ClickPublishNow st) in
        Uploader.mode (Uploader.formState st') = Uploader.immediate
        /\ Uploader.publishAt (Uploader.formState st') = None)
  /\ (forall actions,
        let st := fst (Uploader.run fetch actions Uploader.initial) in
        Uploader.mode (Uploader.formState st) = Uploader.immediate ->
        Uploader.publishAt (Uploader.formState st) = None)
  /\ (forall st value url method body,
        let st' := fst (Uploader.run fetch
                          [Uploader.ClickSchedule; Uploader.EditPublishAt value;
                           Uploader.ClickPublishNow] st) in
        Uploader.publishAt (Uploader.formState st') = None
        /\ (In (Uploader.Fetch url method body)
              (snd (Uploader.handleSubmit fetch st')) ->
            Js.has body "publishAt" = false)).
Proof.
  assert (Hsend : forall st url method body,
             Uploader.mode (Uploader.formState st) = Uploader.immediate ->
             In (Uploader.Fetch url method body)
               (snd (Uploader.handleSubmit fetch st)) ->
             Js.has body "publishAt" = false).
  { intros st url method body Hmode Hin.
    destruct (handleSubmit_requests fetch st url method body Hin)
      as (f & data & _ & _ & Hparse & ->).
    rewrite outgoing_has_publishAt.
    rewrite formSchema_spec in Hparse.
    destruct (Nat.ltb _ 1); [discriminate |].
    destruct (Nat.ltb 2200 _); [discriminate |].
    inversion Hparse; subst; simpl. rewrite Hmode. reflexivity. }
  repeat apply conj.
  - exact Hsend.
  - intro st. split; reflexivity.
  - intros actions st. subst st.
    apply run_keeps_immediate_clear. reflexivity.
  - intros st value url method body st'. split; [reflexivity |].
    apply Hsend. reflexivity.
Qed.

(** C6 along a session: a time is entered in scheduled mode, the user
    toggles back and submits; the one request has no [publishAt] field. *)
Lemma immediate_mode_sends_no_publishAt_witness :
  let session := [Uploader.ChooseFile (Some Sample.png);
                  Uploader.EditCaption "Hello";
                  Uploader.ClickSchedule;
                  Uploader.EditPublishAt "2025-01-01T10:00";
                  Uploader.ClickPublishNow] in
  let st := fst (Uploader.run Sample.fetch_ok session Uploader.initial) in
  Uploader.mode (Uploader.formState st) = Uploader.immediate
  /\ Uploader.publishAt (Uploader.formState st) = None
  /\ snd (Uploader.handleSubmit Sample.fetch_ok st)
     = [Uploader.Fetch "/api/instagram/publish" "POST"
          [("image", Js.EFile Sample.png); ("caption", Js.EString "Hello")];
        Uploader.RouterRefresh].
Proof.
  intros session st.
  destruct (immediate_mode_sends_no_publishAt Sample.fetch_ok) as (_ & _ & Hinv & _).
  split; [reflexivity |].
  split; [exact (Hinv session eq_refl) | reflexivity].
Defined.

(** C7.  In scheduled mode with no publish time (never entered, or
    cleared to the empty string), a submission with a file of at most 8 MB
    and a caption of 1 to 2200 characters passes [formSchema], and the
    request is sent without a [publishAt] field.  [formSchema] never raises
    an issue about the publish time: its only issues are the caption's. *)
Theorem scheduled_without_publishAt_is_submitted
    (fetch : Uploader.fetch_fn) (st : Uploader.State) (f : Js.File) :
  Uploader.file st = Some f ->
  Js.size f <= 8 * 1024 * 1024 ->
  (1 <= String.length (Uploader.caption (Uploader.formState st)) <= 2200)%nat ->
  Uploader.mode (Uploader.formState st) = Uploader.scheduled ->
  (Uploader.publishAt (Uploader.formState st) = None
   \/ Uploader.publishAt (Uploader.formState st) = Some "") ->
  (exists data rest,
     Uploader.formSchema (Uploader.formState st) = inr data
     /\ Uploader.mode data = Uploader.scheduled
     /\ Uploader.publishAt data = None
     /\ snd (Uploader.handleSubmit fetch st)
        = Uploader.Fetch "/api/instagram/publish" "POST"
            (Uploader.outgoing f data) :: rest
     /\ Js.has (Uploader.outgoing f data) "publishAt" = false
     /\ (forall url method body,
           In (Uploader.Fetch url method body)
             (snd (Uploader.handleSubmit fetch st)) ->
           Js.has body "publishAt" = false))
  /\ (forall input issues i,
        Uploader.formSchema input = inl issues -> In i issues ->
        Zod.message i = "Caption is required"
        \/ Zod.message i = "Instagram captions are limited to 2,200 characters.").
Proof.
  intros Hfile Hsize Hlen Hmode Hunset. split.
  - apply too_large_false in Hsize.
    assert (Hparse : Uploader.formSchema (Uploader.formState st)
                     = inr {| Uploader.caption := Uploader.caption (Uploader.formState st);
                              Uploader.publishAt := None;
                              Uploader.mode := Uploader.scheduled;
                              Uploader.locationId :=
                                Uploader.transform
                                  (Uploader.locationId (Uploader.formState st)) |}).
    { rewrite formSchema_spec, Hmode.
      destruct (Nat.ltb_spec (String.length (Uploader.caption (Uploader.formState st))) 1);
        [lia |].
      destruct (Nat.ltb_spec 2200
                  (String.length (Uploader.caption (Uploader.formState st))));
        [lia |].
      destruct Hunset as [-> | ->]; reflexivity. }
    eexists. eexists. split; [exact Hparse |].
    rewrite (handleSubmit_valid fetch st f _ Hfile Hsize Hparse).
    repeat apply conj; try reflexivity.
    + rewrite outgoing_has_publishAt. reflexivity.
    + intros url method body [Heq | Hin].
      * inversion Heq; subst. rewrite outgoing_has_publishAt. reflexivity.
      * destruct (fetch _ _ _) as [e | response]; [destruct Hin |].
        destruct (Uploader.ok response); [| destruct Hin].
        destruct Hin as [Heq | []]. discriminate Heq.
  - intros input issues i Hfail Hin. rewrite formSchema_spec in Hfail.
    destruct (Nat.ltb _ 1).
    + inversion Hfail; subst. destruct Hin as [<- | []]. left. reflexivity.
    + destruct (Nat.ltb 2200 _); [| discriminate].
      inversion Hfail; subst. destruct Hin as [<- | []]. right. reflexivity.
Qed.

(** C7 at a form in scheduled mode whose publish time was never entered. *)
Lemma scheduled_without_publishAt_is_submitted_witness :
  let st := Sample.filled Sample.png
              {| Uploader.caption := "Hello"; Uploader.publishAt := None;
                 Uploader.mode := Uploader.scheduled; Uploader.locationId := None |} in
  (Uploader.file st = Some Sample.png
   /\ Js.size Sample.png <= 8 * 1024 * 1024
   /\ Uploader.mode (Uploader.formState st) = Uploader.scheduled
   /\ Uploader.publishAt (Uploader.formState st) = None)
  /\ exists data rest,
       Uploader.formSchema (Uploader.formState st) = inr data
       /\ snd (Uploader.handleSubmit Sample.fetch_ok st)
          = Uploader.Fetch "/api/instagram/publish" "POST"
              (Uploader.outgoing Sample.png data) :: rest
       /\ Js.has (Uploader.outgoing Sample.png data) "publishAt" = false.
Proof.
  intro st. split; [repeat split; simpl; lia |].
  assert (Hsize : Js.size Sample.png <= 8 * 1024 * 1024) by (simpl; lia).
  assert (Hlen : (1 <= String.length (Uploader.caption (Uploader.formState st))
                  <= 2200)%nat) by (simpl; lia).
  destruct (scheduled_without_publishAt_is_submitted Sample.fetch_ok st Sample.png
              eq_refl Hsize Hlen eq_refl (or_introl eq_refl))
    as [(data & rest & Hparse & _ & _ & Hsent & Hnone & _) _].
  exists data, rest. auto.
Defined.

(* ------------------------------------------------------------------ *)
(** ** The scheduled-post cards *)

(** C9 as stated fails: an empty [status_code] is displayed, and so is an
    empty [status] after a missing [status_code]; neither is skipped. *)
Lemma status_label_keeps_empty_string_counterexample :
  Posts.status_code Sample.blank_status_post = Some ""
  /\ Posts.status Sample.blank_status_post = Some "FINISHED"
  /\ Posts.statusLabel Sample.blank_status_post = ""
  /\ Posts.statusLabel
       {| Posts.id := "17900000000000003"; Posts.caption := None;
          Posts.media_url := None; Posts.thumbnail_url := None;
          Posts.status_code := None; Posts.status := Some "";
          Posts.is_published := Some true; Posts.permalink := None |} = "".
Proof.
  repeat apply conj; reflexivity.
Qed.

(** C9 (amended).  The label of a rendered post is the first value that is
    neither undefined nor null among its [status_code], its [status], and
    "PUBLISHED" or "SCHEDULED" by [is_published]; a [status_code] or
    [status] that is the empty string is such a value and is the label.
    Every card of the rendered list carries that label. *)
Theorem status_label_first_defined (post : Posts.ScheduledPost) :
  (forall c, Posts.status_code post = Some c -> Posts.statusLabel post = c)
  /\ (forall s, Posts.status_code post = None -> Posts.status post = Some s ->
                Posts.statusLabel post = s)
  /\ (Posts.status_code post = None -> Posts.status post = None ->
      Posts.statusLabel post
      = match Posts.is_published post with
        | Some true => "PUBLISHED"
        | _ => "SCHEDULED"
        end)
  /\ (forall posts cards,
        Posts.ScheduledPosts posts = Posts.Cards cards ->
        map Posts.label cards = map Posts.statusLabel posts).
Proof.
  unfold Posts.statusLabel. repeat apply conj.
  - intros c ->. reflexivity.
  - intros s -> ->. reflexivity.
  - intros -> ->. reflexivity.
  - intros posts cards H. destruct posts as [| p rest]; [discriminate |].
    inversion H; subst. simpl. f_equal. rewrite map_map. reflexivity.
Qed.

(** C9 (amended) at a post with neither field, not published. *)
Lemma status_label_first_defined_witness :
  Posts.statusLabel Sample.pending_post = "SCHEDULED"
  /\ Posts.statusLabel Sample.blank_status_post = "".
Proof.
  destruct (status_label_first_defined Sample.pending_post) as (_ & _ & Hnone & _).
  destruct (status_label_first_defined Sample.blank_status_post) as (Hcode & _).
  split; [exact (Hnone eq_refl eq_refl) | exact (Hcode "" eq_refl)].
Defined.

(* ------------------------------------------------------------------ *)
(** ** The dashboard page *)

(** [Home] renders what [load] left in the three variables. *)
Lemma Home_load (env : Dashboard.Env) :
  Dashboard.Home env
  = (Task.trace (Dashboard.load env),
     match Task.outcome (Dashboard.load env) with
     | inr l => inr (Dashboard.render (Dashboard.validateInstagramConfig env) l)
     | inl e => inl e
     end).
Proof.
  unfold Dashboard.Home, Task.bind, Task.ret, Task.trace, Task.outcome.
  destruct (snd (Dashboard.load env)); simpl; [reflexivity |].
  rewrite app_nil_r. reflexivity.
Qed.

(** [load] by the readiness of the configuration and the two outcomes. *)
Lemma load_spec (env : Dashboard.Env) :
  Dashboard.load env
  = if Dashboard.ready (Dashboard.validateInstagramConfig env) then
      ([Dashboard.FetchScheduledPosts; Dashboard.FetchPublishingLimit],
       inr match Dashboard.Promise_all (Dashboard.limit_rejects_first env)
                   (Dashboard.fetchScheduledPosts env)
                   (Dashboard.fetchPublishingLimit env) with
           | inr both =>
               {| Dashboard.scheduledPosts := fst both;
                  Dashboard.publishingLimit := snd both;
                  Dashboard.fetchError := None |}
           | inl e =>
               {| Dashboard.scheduledPosts := [];
                  Dashboard.publishingLimit := None;
                  Dashboard.fetchError :=
                    Some (Js.message_or "Failed to load data from Instagram." e) |}
           end)
    else ([], inr {| Dashboard.scheduledPosts := [];
                     Dashboard.publishingLimit := None;
                     Dashboard.fetchError := None |}).
Proof.
  unfold Dashboard.load, Dashboard.fetch_both.
  destruct (Dashboard.ready (Dashboard.validateInstagramConfig env)); [| reflexivity].
  unfold Task.try_catch, Task.bind, Task.call, Task.lift, Task.ret. simpl.
  destruct (Dashboard.Promise_all _ _ _); reflexivity.
Qed.

(** [Promise.all] rejects exactly when one of the two promises rejects,
    and then with the reason of one of them. *)
Lemma Promise_all_rejects {A B : Type} (second_first : bool)
    (p : Js.thrown + A) (q : Js.thrown + B) :
  (exists e, p = inl e) \/ (exists e, q = inl e) ->
  exists e, Dashboard.Promise_all second_first p q = inl e
            /\ (p = inl e \/ q = inl e).
Proof.
  destruct p as [e1 | a], q as [e2 | b]; simpl.
  - intros _. destruct second_first; eauto.
  - intros _. eauto.
  - intros _. eauto.
  - intros [[e H] | [e H]]; discriminate.
Qed.

(** C8.  [Home] always returns a page.  When the configuration is not
    ready no fetch is made.  When it is ready both fetches are made, and if
    either throws, one error string is captured (the message of one of the
    thrown errors, or the fixed text when the thrown value is not an
    [Error]), the posts are the empty list and the quota is null, whatever
    the other fetch returned; the page then shows the placeholder and no
    quota banner. *)
Theorem dashboard_survives_fetch_failure (env : Dashboard.Env) :
  (exists page, Task.outcome (Dashboard.Home env) = inr page)
  /\ (Dashboard.ready (Dashboard.validateInstagramConfig env) = false ->
      Task.trace (Dashboard.Home env) = []
      /\ Task.outcome (Dashboard.load env)
         = inr {| Dashboard.scheduledPosts := [];
                  Dashboard.publishingLimit := None;
                  Dashboard.fetchError := None |})
  /\ (Dashboard.ready (Dashboard.validateInstagramConfig env) = true ->
      Task.trace (Dashboard.Home env)
      = [Dashboard.FetchScheduledPosts; Dashboard.FetchPublishingLimit])
  /\ (Dashboard.ready (Dashboard.validateInstagramConfig env) = true ->
      (exists e, Dashboard.fetchScheduledPosts env = inl e)
      \/ (exists e, Dashboard.fetchPublishingLimit env = inl e) ->
      exists e,
        (Dashboard.fetchScheduledPosts env = inl e
         \/ Dashboard.fetchPublishingLimit env = inl e)
        /\ Task.outcome (Dashboard.load env)
           = inr {| Dashboard.scheduledPosts := [];
                    Dashboard.publishingLimit := None;
                    Dashboard.fetchError :=
                      Some (Js.message_or "Failed to load data from Instagram." e) |}
        /\ exists page,
             Task.outcome (Dashboard.Home env) = inr page
             /\ Dashboard.posts_section page = Posts.Placeholder
             /\ Dashboard.quota_banner page = None).
Proof.
  rewrite Home_load, load_spec.
  destruct (Dashboard.ready (Dashboard.validateInstagramConfig env)) eqn:Hready;
    unfold Task.outcome, Task.trace; simpl.
  - repeat apply conj; eauto; try discriminate.
    intros _ Hthrown.
    destruct (Promise_all_rejects (Dashboard.limit_rejects_first env) _ _ Hthrown)
      as (e & -> & Hwho).
    exists e. repeat split; eauto.
  - repeat apply conj; eauto; discriminate.
Qed.

(** C8 at a dashboard whose posts arrive while the quota fetch throws: the
    posts are dropped with the quota. *)
Lemma dashboard_survives_fetch_failure_witness :
  Task.outcome (Dashboard.load Sample.dashboard_quota_down)
  = inr {| Dashboard.scheduledPosts := [];
           Dashboard.publishingLimit := None;
           Dashboard.fetchError := Some "Graph API error 190" |}.
Proof.
  destruct (dashboard_survives_fetch_failure Sample.dashboard_quota_down)
    as (_ & _ & _ & Hfail).
  destruct (Hfail eq_refl (or_intror (ex_intro _ _ eq_refl)))
    as (e & [Hposts | Hlimit] & Hload & _).
  - discriminate Hposts.
  - inversion Hlimit; subst. exact Hload.
Defined.


(* ------------------------------------------------------------------ *)
(** ** The publish route on every request *)

(** Splits a conjunction about a response whose status is known, and
    closes the cases that assume another status. *)
Ltac by_status :=
  repeat apply conj; simpl; intros; simpl in *;
  try discriminate; try congruence; eauto.

(** The five ways through [POST]. *)
Lemma POST_paths (env : Route.Env) (request : Route.Request) :
  (exists e,
     Route.getInstagramConfig env = inl e
     /\ Route.POST env request
        = ([], inr {| Route.body :=
                        Route.error_body
                          (Js.message_or "Missing environment config." e);
                      Route.status := 500 |}))
  \/ (exists config e,
        Route.getInstagramConfig env = inr config
        /\ Route.formData request = inl e
        /\ Route.POST env request = ([Route.configure config], inl e))
  \/ (exists config fd,
        Route.getInstagramConfig env = inr config
        /\ Route.formData request = inr fd
        /\ Js.as_file (Js.get fd "image") = None
        /\ Route.POST env request
           = ([Route.configure config],
              inr {| Route.body := Route.error_body "Image file is required.";
                     Route.status := 400 |}))
  \/ (exists config fd image,
        Route.getInstagramConfig env = inr config
        /\ Route.formData request = inr fd
        /\ Js.as_file (Js.get fd "image") = Some image
        /\ Route.p_caption (Route.rawPayload fd) = ""
        /\ Route.POST env request
           = ([Route.configure config],
              inr {| Route.body := Route.error_body (Route.too_small_message env);
                     Route.status := 400 |}))
  \/ (exists config fd image,
        Route.getInstagramConfig env = inr config
        /\ Route.formData request = inr fd
        /\ Js.as_file (Js.get fd "image") = Some image
        /\ Route.requestSchema env (Route.rawPayload fd) = inr (Route.rawPayload fd)).
Proof.
  destruct (Route.getInstagramConfig env) as [e | config] eqn:Hconfig.
  { left. exists e. split; [reflexivity |].
    unfold Route.POST. rewrite Hconfig. reflexivity. }
  destruct (Route.formData request) as [e | fd] eqn:Hform.
  { right; left. exists config, e. repeat split.
    unfold Route.POST. rewrite Hconfig.
    unfold Task.bind at 1. simpl.
    unfold Task.bind at 1. rewrite Hform. reflexivity. }
  destruct (Js.as_file (Js.get fd "image")) as [image |] eqn:Himage.
  - destruct (String.length (Route.p_caption (Route.rawPayload fd))) as [| n] eqn:Hlen.
    + right; right; right; left. exists config, fd, image.
      assert (Hcap : Route.p_caption (Route.rawPayload fd) = "")
        by (destruct (Route.p_caption (Route.rawPayload fd)); [reflexivity | discriminate]).
      repeat split; trivial.
      unfold Route.POST. rewrite Hconfig.
      unfold Task.bind at 1. simpl.
      unfold Task.bind at 1. rewrite Hform. simpl.
      rewrite Himage, requestSchema_spec, Hcap. reflexivity.
    + right; right; right; right. exists config, fd, image.
      repeat split; trivial. apply requestSchema_passes. lia.
  - right; right; left. exists config, fd. repeat split; trivial.
    unfold Route.POST. rewrite Hconfig.
    unfold Task.bind at 1. simpl.
    unfold Task.bind at 1. rewrite Hform. simpl.
    rewrite Himage. reflexivity.
Qed.

(** X1.  Whatever the request, a response of [POST] has status 200, 400 or
    500.  A 400 means nothing was uploaded and nothing scheduled, and its
    error is "Image file is required." or the schema's message.  A 200
    means the image was uploaded once, [scheduleInstagramPost] was called
    once with the URL of that upload, and the body is the creation it
    returned. *)
Theorem post_status_and_side_effects
    (env : Route.Env) (request : Route.Request) (resp : Route.Response) :
  Task.outcome (Route.POST env request) = inr resp ->
  let tr := Task.trace (Route.POST env request) in
  (Route.status resp = 200 \/ Route.status resp = 400 \/ Route.status resp = 500)
  /\ (Route.status resp = 400 ->
      Route.uploads tr = [] /\ Route.schedules tr = []
      /\ (Route.body resp = Route.error_body "Image file is required."
          \/ Route.body resp = Route.error_body (Route.too_small_message env)))
  /\ (Route.status resp = 200 ->
      exists config buffer u a creation,
        Route.getInstagramConfig env = inr config
        /\ Route.uploads tr = [buffer]
        /\ Route.upload_outcome env config buffer = inr u
        /\ Route.schedules tr = [a]
        /\ Route.imageUrl a = Route.secure_url u
        /\ Route.scheduleInstagramPost env a = inr creation
        /\ Route.body resp = Route.success_body creation).
Proof.
  intros Hout tr. subst tr.
  destruct (POST_paths env request)
    as [(e & _ & H) | [(config & e & _ & _ & H) | [(config & fd & _ & _ & _ & H)
       | [(config & fd & image & _ & _ & _ & _ & H)
       | (config & fd & image & Hconfig & Hform & Himage & Hschema)]]]].
  - rewrite H in *. inversion Hout; subst. by_status.
  - rewrite H in Hout. discriminate Hout.
  - rewrite H in *. inversion Hout; subst. by_status.
  - rewrite H in *. inversion Hout; subst. by_status.
  - rewrite (POST_validated env request config fd Hconfig Hform image Himage
               _ Hschema) in *.
    destruct (Route.upload_outcome env config (Js.arrayBuffer image))
      as [e | u] eqn:Hup.
    { inversion Hout; subst. by_status. }
    destruct (Route.publishAtIso env (Route.rawPayload fd)) as [e | iso].
    { inversion Hout; subst. by_status. }
    destruct (Route.scheduleInstagramPost env _) as [e | c] eqn:Hs.
    { inversion Hout; subst. by_status. }
    inversion Hout; subst. simpl. repeat apply conj; auto; try discriminate.
    intros _. exists config, (Js.arrayBuffer image), u. eexists. exists c.
    repeat split; try reflexivity; trivial.
Qed.

(** X1 at a plain request. *)
Lemma post_status_and_side_effects_witness :
  let request := Sample.post (Sample.form [("caption", "Hello")]) in
  exists a,
    Route.schedules (Task.trace (Route.POST Sample.env request)) = [a]
    /\ Route.imageUrl a = Route.secure_url Sample.hosted.
Proof.
  intro request.
  destruct (post_status_and_side_effects Sample.env request
              {| Route.body := Route.success_body Sample.created;
                 Route.status := 200 |} eq_refl)
    as (_ & _ & Hok).
  destruct (Hok eq_refl) as (config & buffer & u & a & c & Hc & _ & Hu & Ha & Hurl & _).
  exists a. split; [exact Ha |].
  inversion Hc; subst. inversion Hu; subst. exact Hurl.
Defined.

(** X2.  [POST] throws exactly when the configuration loads and
    [request.formData()] throws; it then throws that same value, after the
    Cloudinary configuration and before any upload.  With a configuration
    that does not load, the body is not read: an unreadable body is
    answered 500 like any other. *)
Theorem post_throws_only_on_unreadable_body
    (env : Route.Env) (request : Route.Request) (e : Js.thrown) :
  (Task.outcome (Route.POST env request) = inl e
   <-> exists config,
         Route.getInstagramConfig env = inr config
         /\ Route.formData request = inl e)
  /\ (Task.outcome (Route.POST env request) = inl e ->
      exists config,
        Task.trace (Route.POST env request) = [Route.configure config])
  /\ (forall thrown,
        Route.getInstagramConfig env = inl thrown ->
        Route.POST env request
        = Route.POST env {| Route.formData := inl (Js.ErrorInstance "unreadable") |}).
Proof.
  assert (Hvalid : forall config fd image,
             Route.getInstagramConfig env = inr config ->
             Route.formData request = inr fd ->
             Js.as_file (Js.get fd "image") = Some image ->
             Route.requestSchema env (Route.rawPayload fd)
             = inr (Route.rawPayload fd) ->
             exists resp, Task.outcome (Route.POST env request) = inr resp).
  { intros config fd image Hconfig Hform Himage Hschema.
    rewrite (POST_validated env request config fd Hconfig Hform image Himage
               _ Hschema).
    unfold Task.outcome.
    destruct (Route.upload_outcome env config (Js.arrayBuffer image));
      [simpl; eauto |].
    destruct (Route.publishAtIso env (Route.rawPayload fd)); [simpl; eauto |].
    destruct (Route.scheduleInstagramPost env _); simpl; eauto. }
  destruct (POST_paths env request)
    as [(e0 & Hc & H) | [(config & e0 & Hc & Hf & H) | [(config & fd & Hc & Hf & _ & H)
       | [(config & fd & image & Hc & Hf & _ & _ & H)
       | (config & fd & image & Hc & Hf & Himage & Hschema)]]]].
  - rewrite H. split; [| split].
    + split; [discriminate |]. intros (config & Hc' & _). congruence.
    + discriminate.
    + intros thrown _. unfold Route.POST. rewrite Hc. reflexivity.
  - rewrite H. split; [| split].
    + split.
      * intro Heq. inversion Heq; subst. eauto.
      * intros (config' & _ & Hf'). simpl. congruence.
    + intros _. exists config. reflexivity.
    + intros thrown Hc'. congruence.
  - rewrite H. split; [| split].
    + split; [discriminate |]. intros (config' & _ & Hf'). congruence.
    + discriminate.
    + intros thrown Hc'. congruence.
  - rewrite H. split; [| split].
    + split; [discriminate |]. intros (config' & _ & Hf'). congruence.
    + discriminate.
    + intros thrown Hc'. congruence.
  - destruct (Hvalid config fd image Hc Hf Himage Hschema) as [resp Hresp].
    rewrite Hresp. split; [| split].
    + split; [discriminate |]. intros (config' & _ & Hf'). congruence.
    + discriminate.
    + intros thrown Hc'. congruence.
Qed.

(** X2 at a request whose body cannot be read. *)
Lemma post_throws_only_on_unreadable_body_witness :
  let request := {| Route.formData := inl (Js.ErrorInstance "Failed to parse body as FormData.") |} in
  Task.outcome (Route.POST Sample.env request)
  = inl (Js.ErrorInstance "Failed to parse body as FormData.")
  /\ Task.outcome (Route.POST Sample.env_unconfigured request)
     = inr {| Route.body := Js.JObj [("error", Js.JStr "Missing INSTAGRAM_ACCESS_TOKEN")];
              Route.status := 500 |}.
Proof.
  intro request.
  destruct (post_throws_only_on_unreadable_body Sample.env request
              (Js.ErrorInstance "Failed to parse body as FormData."))
    as ([_ Hthrows] & _).
  split; [| reflexivity].
  apply Hthrows. exists Sample.config. split; reflexivity.
Defined.

(** X3.  On a validated request, what Cloudinary hands the callback
    decides the upload: an error wins even when a result comes with it,
    and neither an error nor a result is the error "Unknown Cloudinary
    upload error."; in both cases the answer is 500 and nothing is
    scheduled. *)
Theorem upload_callback_error_wins
    (env : Route.Env) (request : Route.Request) (config : Route.Config)
    (fd : Js.FormData) (image : Js.File) (data : Route.Payload) :
  Route.getInstagramConfig env = inr config ->
  Route.formData request = inr fd ->
  Js.as_file (Js.get fd "image") = Some image ->
  Route.requestSchema env (Route.rawPayload fd) = inr data ->
  let delivered :=
    Route.upload_stream env (Route.CLOUDINARY_UPLOAD_FOLDER config) "image"
      (Js.arrayBuffer image) in
  let r := Route.POST env request in
  (forall error result,
     delivered = (Some error, result) ->
     Task.outcome r = inr (Route.failed error)
     /\ Route.schedules (Task.trace r) = [])
  /\ (delivered = (None, None) ->
      Task.outcome r
      = inr {| Route.body := Route.error_body "Unknown Cloudinary upload error.";
               Route.status := 500 |}
      /\ Route.schedules (Task.trace r) = []).
Proof.
  intros Hconfig Hform Himage Hschema delivered r. subst delivered r.
  rewrite (POST_validated env request config fd Hconfig Hform image Himage
             data Hschema).
  unfold Route.upload_outcome. split.
  - intros error result ->. split; reflexivity.
  - intros ->. split; reflexivity.
Qed.

(** X3 where Cloudinary delivers an error together with a result. *)
Lemma upload_callback_error_wins_witness :
  let env := {| Route.getInstagramConfig := inr Sample.config;
                Route.upload_stream :=
                  fun _ _ _ => (Some (Js.ErrorInstance "Timeout"), Some Sample.hosted);
                Route.scheduleInstagramPost := fun _ => inr Sample.created;
                Route.Date_parse := Sample.parse;
                Route.too_small_message := "Required" |} in
  let r := Route.POST env (Sample.post (Sample.form [("caption", "Hello")])) in
  Task.outcome r
  = inr {| Route.body := Js.JObj [("error", Js.JStr "Timeout")];
           Route.status := 500 |}
  /\ Route.schedules (Task.trace r) = [].
Proof.
  intros env r.
  destruct (upload_callback_error_wins env
              (Sample.post (Sample.form [("caption", "Hello")])) Sample.config
              (Sample.form [("caption", "Hello")]) Sample.png
              (Route.rawPayload (Sample.form [("caption", "Hello")]))
              eq_refl eq_refl eq_refl eq_refl) as [Herr _].
  exact (Herr (Js.ErrorInstance "Timeout") (Some Sample.hosted) eq_refl).
Defined.

(* ------------------------------------------------------------------ *)
(** ** The upload form after the request *)

(** [handleSubmit] once the three checks pass, by what [fetch] answers. *)
Lemma handleSubmit_sent (fetch : Uploader.fetch_fn) (st : Uploader.State)
    (f : Js.File) (data : Uploader.FormFields) :
  Uploader.file st = Some f ->
  Uploader.too_large f = false ->
  Uploader.formSchema (Uploader.formState st) = inr data ->
  let body := Uploader.outgoing f data in
  let sent := Uploader.Fetch "/api/instagram/publish" "POST" body in
  let st1 := Uploader.setError None
               (Uploader.setMessage None (Uploader.setIsSubmitting true st)) in
  let fail (reason : string) :=
    Uploader.setIsSubmitting false (Uploader.setError (Some reason) st1) in
  Uploader.handleSubmit fetch st
  = match fetch "/api/instagram/publish" "POST" body with
    | inl e => (fail (Js.message_or "Unknown error while uploading." e), [sent])
    | inr response =>
        if Uploader.ok response then
          (Uploader.setIsSubmitting false
             (Uploader.resetForm
                (Uploader.setMessage
                   (Some match Uploader.mode data with
                         | Uploader.scheduled => "Post scheduled successfully!"
                         | Uploader.immediate => "Post published to Instagram!"
                         end) st1)),
           [sent; Uploader.RouterRefresh])
        else
          match Uploader.text response with
          | inl e => (fail (Js.message_or "Unknown error while uploading." e), [sent])
          | inr t =>
              (fail (if Js.truthy t then t
                     else "Instagram upload failed with status "
                          ++ Js.number_to_string (Uploader.status response) ++ "."),
               [sent])
          end
    end.
Proof.
  intros Hfile Hsize Hparse body sent st1 fail. subst body sent st1 fail.
  unfold Uploader.handleSubmit. rewrite Hfile, Hsize, Hparse.
  unfold Uploader.attempt, Task.try_catch, Task.bind, Task.call, Task.lift,
    Task.throw, Task.ret, Task.trace, Task.outcome. simpl.
  destruct (fetch _ _ _) as [e | response]; simpl; [reflexivity |].
  destruct (Uploader.ok response); simpl; [reflexivity |].
  destruct (Uploader.text response); reflexivity.
Qed.



(** Where the names of the outgoing form lead. *)
Lemma outgoing_get (f : Js.File) (data : Uploader.FormFields) :
  Js.get (Uploader.outgoing f data) "image" = Some (Js.EFile f)
  /\ Js.get (Uploader.outgoing f data) "caption"
     = Some (Js.EString (Uploader.caption data))
  /\ Js.get (Uploader.outgoing f data) "locationId"
     = match Uploader.locationId data with
       | Some l => if Js.truthy l then Some (Js.EString l) else None
       | None => None
       end
  /\ Js.get (Uploader.outgoing f data) "publishAt"
     = match Uploader.mode data, Uploader.publishAt data with
       | Uploader.scheduled, Some p => if Js.truthy p then Some (Js.EString p) else None
       | _, _ => None
       end.
Proof.
  unfold Uploader.outgoing, Js.append.
  destruct (Uploader.locationId data) as [l |]; [destruct (Js.truthy l) |];
    destruct (Uploader.mode data);
    destruct (Uploader.publishAt data) as [q |];
    try destruct (Js.truthy q); repeat split.
Qed.

(** X5.  The form [handleSubmit] builds names each field at most once, in
    the order image, caption, locationId, publishAt; it always holds the
    file and the caption, and a [locationId] or [publishAt] entry it holds
    is never the empty string. *)
Theorem outgoing_well_formed (f : Js.File) (data : Uploader.FormFields) :
  let body := Uploader.outgoing f data in
  NoDup (map fst body)
  /\ (exists optional,
        map fst body = ("image" :: "caption" :: optional)%list
        /\ (optional = [] \/ optional = ["locationId"] \/ optional = ["publishAt"]
            \/ optional = ["locationId"; "publishAt"]))
  /\ Js.get body "image" = Some (Js.EFile f)
  /\ Js.get body "caption" = Some (Js.EString (Uploader.caption data))
  /\ (forall k v, In (k, v) body -> k <> "image" -> k <> "caption" ->
                  exists s, v = Js.EString s /\ s <> "").
Proof.
  intro body. subst body.
  assert (Hne : forall s, Js.truthy s = true -> s <> "")
    by (intros s H ->; discriminate H).
  assert (Hnodup2 : NoDup ["image"; "caption"])
    by (repeat constructor; simpl; intuition discriminate).
  assert (Hnodup3a : NoDup ["image"; "caption"; "locationId"])
    by (repeat constructor; simpl; intuition discriminate).
  assert (Hnodup3b : NoDup ["image"; "caption"; "publishAt"])
    by (repeat constructor; simpl; intuition discriminate).
  assert (Hnodup4 : NoDup ["image"; "caption"; "locationId"; "publishAt"])
    by (repeat constructor; simpl; intuition discriminate).
  unfold Uploader.outgoing, Js.append.
  destruct (Uploader.locationId data) as [l |];
    [destruct (Js.truthy l) eqn:Hl |];
    destruct (Uploader.mode data);
    destruct (Uploader.publishAt data) as [q |];
    try destruct (Js.truthy q) eqn:Hq; simpl;
    (split; [assumption |]);
    (split; [eexists; split; [reflexivity | tauto] |]);
    (split; [reflexivity |]); (split; [reflexivity |]);
    intros k v Hin Hk1 Hk2;
    repeat (destruct Hin as [Heq | Hin];
            [inversion Heq; subst; try contradiction; eauto |]);
    destruct Hin.
Qed.

(** X6.  What [formSchema] returns is normalised: the caption and the
    mode are the input's, [publishAt] and [locationId] are undefined or
    non-empty, and parsing it again returns it unchanged. *)
Theorem formSchema_normalizes (input data : Uploader.FormFields) :
  Uploader.formSchema input = inr data ->
  Uploader.caption data = Uploader.caption input
  /\ Uploader.mode data = Uploader.mode input
  /\ (1 <= String.length (Uploader.caption data) <= 2200)%nat
  /\ Uploader.publishAt data <> Some ""
  /\ Uploader.locationId data <> Some ""
  /\ (forall s, s <> "" -> Uploader.publishAt input = Some s ->
                Uploader.publishAt data = Some s)
  /\ (forall s, s <> "" -> Uploader.locationId input = Some s ->
                Uploader.locationId data = Some s)
  /\ Uploader.formSchema data = inr data.
Proof.
  rewrite formSchema_spec.
  destruct (Nat.ltb_spec (String.length (Uploader.caption input)) 1) as [| Hmin];
    [discriminate |].
  destruct (Nat.ltb_spec 2200 (String.length (Uploader.caption input))) as [| Hmax];
    [discriminate |].
  intro H. inversion H; subst; clear H. simpl.
  assert (Hfix : forall v, Uploader.transform (Uploader.transform v)
                           = Uploader.transform v)
    by (intros [[| c s] |]; reflexivity).
  assert (Hnot : forall v, Uploader.transform v <> Some "")
    by (intros [[| c s] |]; discriminate).
  assert (Hkeep : forall v s, s <> "" -> v = Some s -> Uploader.transform v = Some s)
    by (intros v [| c s] Hs ->; [contradiction | reflexivity]).
  repeat apply conj; auto; try lia.
  rewrite formSchema_spec. simpl.
  destruct (Nat.ltb_spec (String.length (Uploader.caption input)) 1); [lia |].
  destruct (Nat.ltb_spec 2200 (String.length (Uploader.caption input))); [lia |].
  rewrite !Hfix. reflexivity.
Qed.

(** X6 at fields whose optional values were cleared to the empty string. *)
Lemma formSchema_normalizes_witness :
  let input := {| Uploader.caption := "Hello"; Uploader.publishAt := Some "";
                  Uploader.mode := Uploader.scheduled;
                  Uploader.locationId := Some "" |} in
  let data := {| Uploader.caption := "Hello"; Uploader.publishAt := None;
                 Uploader.mode := Uploader.scheduled;
                 Uploader.locationId := None |} in
  Uploader.formSchema input = inr data /\ Uploader.formSchema data = inr data.
Proof.
  intros input data. split; [reflexivity |].
  destruct (formSchema_normalizes input data eq_refl)
    as (_ & _ & _ & _ & _ & _ & _ & Hfix).
  exact Hfix.
Defined.

(** One [handleSubmit] sends at most one request, and refreshes at most
    once and only after a request. *)
Lemma handleSubmit_counts (fetch : Uploader.fetch_fn) (st : Uploader.State) :
  (Count.refreshes (snd (Uploader.handleSubmit fetch st))
   <= Count.fetches (snd (Uploader.handleSubmit fetch st)))%nat
  /\ (Count.fetches (snd (Uploader.handleSubmit fetch st)) <= 1)%nat.
Proof.
  unfold Count.refreshes, Count.fetches.
  destruct (Uploader.file st) as [f |] eqn:Hfile;
    [| unfold Uploader.handleSubmit; rewrite Hfile; simpl; split; lia].
  destruct (Uploader.too_large f) eqn:Hsize;
    [unfold Uploader.handleSubmit; rewrite Hfile, Hsize; simpl; split; lia |].
  destruct (Uploader.formSchema (Uploader.formState st)) as [issues | data] eqn:Hparse;
    [unfold Uploader.handleSubmit; rewrite Hfile, Hsize, Hparse; simpl; split; lia |].
  rewrite (handleSubmit_valid fetch st f data Hfile Hsize Hparse).
  destruct (fetch _ _ _) as [e | response]; [simpl; split; lia |].
  destruct (Uploader.ok response); simpl; split; lia.
Qed.

(** X7.  Over any session from any state, the requests sent are at most
    the submit clicks, and the refreshes at most the requests. *)
Theorem session_requests_bounded (fetch : Uploader.fetch_fn)
    (actions : list Uploader.action) (st : Uploader.State) :
  (Count.refreshes (snd (Uploader.run fetch actions st))
   <= Count.fetches (snd (Uploader.run fetch actions st)))%nat
  /\ (Count.fetches (snd (Uploader.run fetch actions st))
      <= Count.submits actions)%nat.
Proof.
  revert st. induction actions as [| a rest IH]; intro st; [unfold Count.refreshes, Count.fetches, Count.submits; simpl; split; lia |].
  simpl.
  assert (Hstep :
            (Count.refreshes (snd (Uploader.step fetch a st))
             <= Count.fetches (snd (Uploader.step fetch a st)))%nat
            /\ (Count.fetches (snd (Uploader.step fetch a st))
                <= if Count.is_submit a then 1 else 0)%nat).
  { destruct a;
      try (unfold Uploader.step, Count.refreshes, Count.fetches; simpl;
           split; lia).
    - unfold Uploader.step.
      destruct (Uploader.mode (Uploader.formState st));
        unfold Count.refreshes, Count.fetches; simpl; split; lia.
    - unfold Uploader.step. destruct (Uploader.isSubmitting st);
        [unfold Count.refreshes, Count.fetches; simpl; split; lia |].
      apply handleSubmit_counts. }
  destruct (Uploader.step fetch a st) as [st1 out1]. simpl in Hstep.
  specialize (IH st1). destruct (Uploader.run fetch rest st1) as [st2 out2].
  simpl in IH. simpl.
  unfold Count.refreshes, Count.fetches, Count.submits in *.
  rewrite !filter_app, !length_app. simpl.
  destruct (Count.is_submit a); simpl; lia.
Qed.

(** X8.  After an accepted submission the form holds no file, so a
    second submit click right after it sends nothing: the session makes one
    request and one refresh, and ends showing both the success message and
    the error "Please select an image to upload.". *)
Theorem resubmit_after_success_sends_nothing
    (fetch : Uploader.fetch_fn) (st : Uploader.State) (f : Js.File)
    (data : Uploader.FormFields) (response : Uploader.FetchResponse) :
  Uploader.isSubmitting st = false ->
  Uploader.file st = Some f ->
  Js.size f <= 8 * 1024 * 1024 ->
  Uploader.formSchema (Uploader.formState st) = inr data ->
  fetch "/api/instagram/publish" "POST" (Uploader.outgoing f data) = inr response ->
  Uploader.ok response = true ->
  let after := fst (Uploader.run fetch [Uploader.Submit; Uploader.Submit] st) in
  snd (Uploader.run fetch [Uploader.Submit; Uploader.Submit] st)
  = [Uploader.Fetch "/api/instagram/publish" "POST" (Uploader.outgoing f data);
     Uploader.RouterRefresh]
  /\ Uploader.file after = None
  /\ Uploader.error after = Some "Please select an image to upload."
  /\ exists shown, Uploader.message after = Some shown.
Proof.
  intros Hidle Hfile Hsize Hparse Hfetch Hok after. subst after.
  apply too_large_false in Hsize.
  unfold Uploader.run, Uploader.step. rewrite Hidle.
  rewrite (handleSubmit_sent fetch st f data Hfile Hsize Hparse), Hfetch, Hok.
  simpl. repeat split. eauto.
Qed.

(** X8 at a filled form and a server that accepts. *)
Lemma resubmit_after_success_sends_nothing_witness :
  let st := Sample.filled Sample.png
              {| Uploader.caption := "Hello"; Uploader.publishAt := None;
                 Uploader.mode := Uploader.immediate;
                 Uploader.locationId := None |} in
  snd (Uploader.run Sample.fetch_ok [Uploader.Submit; Uploader.Submit] st)
  = [Uploader.Fetch "/api/instagram/publish" "POST"
       [("image", Js.EFile Sample.png); ("caption", Js.EString "Hello")];
     Uploader.RouterRefresh].
Proof.
  intro st.
  assert (Hsize : Js.size Sample.png <= 8 * 1024 * 1024) by (simpl; lia).
  exact (proj1 (resubmit_after_success_sends_nothing Sample.fetch_ok st Sample.png
                  _ _ eq_refl eq_refl Hsize eq_refl eq_refl eq_refl)).
Defined.

(* ------------------------------------------------------------------ *)
(** ** The form's request at the route *)

(** The route's [rawPayload] of a form built by [handleSubmit]. *)
Lemma rawPayload_outgoing (f : Js.File) (data : Uploader.FormFields) :
  Route.rawPayload (Uploader.outgoing f data)
  = {| Route.p_caption := Uploader.caption data;
       Route.p_publishAt :=
         match Uploader.mode data, Uploader.publishAt data with
         | Uploader.scheduled, Some p => if Js.truthy p then Some p else None
         | _, _ => None
         end;
       Route.p_locationId :=
         match Uploader.locationId data with
         | Some l => if Js.truthy l then Some l else None
         | None => None
         end |}.
Proof.
  destruct (outgoing_get f data) as (_ & Hcap & Hloc & Hpub).
  unfold Route.rawPayload. rewrite Hcap, Hloc, Hpub.
  destruct (Uploader.locationId data) as [l |]; [destruct (Js.truthy l) |];
    destruct (Uploader.mode data);
    destruct (Uploader.publishAt data) as [q |];
    try destruct (Js.truthy q); reflexivity.
Qed.

(** A form built from parsed fields passes the route's image and schema
    checks. *)
Lemma outgoing_validated (env : Route.Env) (f : Js.File)
    (input data : Uploader.FormFields) :
  Uploader.formSchema input = inr data ->
  Js.as_file (Js.get (Uploader.outgoing f data) "image") = Some f
  /\ Route.requestSchema env (Route.rawPayload (Uploader.outgoing f data))
     = inr (Route.rawPayload (Uploader.outgoing f data))
  /\ Uploader.caption data = Uploader.caption input
  /\ Uploader.mode data = Uploader.mode input
  /\ Uploader.publishAt data = Uploader.transform (Uploader.publishAt input)
  /\ Uploader.locationId data = Uploader.transform (Uploader.locationId input).
Proof.
  rewrite formSchema_spec.
  destruct (Nat.ltb_spec (String.length (Uploader.caption input)) 1) as [| Hmin];
    [discriminate |].
  destruct (Nat.ltb 2200 _); [discriminate |].
  intro H. inversion H; subst; clear H. simpl.
  destruct (outgoing_get f
              {| Uploader.caption := Uploader.caption input;
                 Uploader.publishAt := Uploader.transform (Uploader.publishAt input);
                 Uploader.mode := Uploader.mode input;
                 Uploader.locationId :=
                   Uploader.transform (Uploader.locationId input) |})
    as (Himg & _).
  rewrite Himg. repeat split.
  apply requestSchema_passes. rewrite rawPayload_outgoing. exact Hmin.
Qed.



(** The route always answers a form built from parsed fields, with 200 or
    with a 500 whose body is [{ error }]; [serve] hands that answer to
    [fetch]. *)
Lemma serve_delivers (env : Route.Env) (f : Js.File)
    (input data : Uploader.FormFields) :
  Uploader.formSchema input = inr data ->
  exists resp,
    Task.outcome (Route.POST env (Loop.deliver (Uploader.outgoing f data))) = inr resp
    /\ Loop.serve env "/api/instagram/publish" "POST" (Uploader.outgoing f data)
       = inr {| Uploader.ok := Loop.ok_status (Route.status resp);
                Uploader.status := Route.status resp;
                Uploader.text := inr (Json.stringify (Route.body resp)) |}
    /\ (Route.status resp = 200
        \/ (Route.status resp = 500
            /\ exists reason, Route.body resp = Route.error_body reason)).
Proof.
  intro Hparse.
  assert (Hresp : exists resp,
             Task.outcome (Route.POST env (Loop.deliver (Uploader.outgoing f data)))
             = inr resp
             /\ (Route.status resp = 200
                 \/ (Route.status resp = 500
                     /\ exists reason, Route.body resp = Route.error_body reason))).
  { assert (Hrefused : forall (tr : list Route.event) reason,
               exists resp,
                 Task.outcome
                   (tr, @inr Js.thrown _
                          {| Route.body := Route.error_body reason;
                             Route.status := 500 |}) = inr resp
                 /\ (Route.status resp = 200
                     \/ (Route.status resp = 500
                         /\ exists r, Route.body resp = Route.error_body r))).
    { intros tr reason. eexists. split; [reflexivity |].
      right. split; [reflexivity |]. exists reason. reflexivity. }
    destruct (Route.getInstagramConfig env) as [e | config] eqn:Hconfig.
    - unfold Route.POST. rewrite Hconfig. apply Hrefused.
    - destruct (outgoing_validated env f input data Hparse)
        as (Himage & Hschema & _).
      rewrite (POST_validated env (Loop.deliver (Uploader.outgoing f data)) config
                 (Uploader.outgoing f data) Hconfig eq_refl f Himage _ Hschema).
      unfold Route.failed.
      destruct (Route.upload_outcome env config (Js.arrayBuffer f));
        [apply Hrefused |].
      destruct (Route.publishAtIso env _); [apply Hrefused |].
      destruct (Route.scheduleInstagramPost env _); [apply Hrefused |].
      eexists. split; [reflexivity |]. left. reflexivity. }
  destruct Hresp as (resp & Hout & Hstatus). exists resp.
  split; [exact Hout |]. split; [| exact Hstatus].
  unfold Loop.serve. rewrite Hout. reflexivity.
Qed.

(** X10.  With this route as the server, a submission that passed the
    form's checks ends in one of two ways.  If the route answers 200, the
    success message is shown, the form is reset and the page refreshed.
    Otherwise the route answers 500 with [{ error: reason }], and the error
    shown is that body as JSON text, [JSON.stringify({ error: reason })],
    not [reason] itself; the fields and the file are kept and nothing is
    refreshed.  The text "Instagram upload failed with status ..." is never
    shown. *)
Theorem refused_submission_shows_json
    (env : Route.Env) (st : Uploader.State) (f : Js.File)
    (data : Uploader.FormFields) :
  Uploader.file st = Some f ->
  Js.size f <= 8 * 1024 * 1024 ->
  Uploader.formSchema (Uploader.formState st) = inr data ->
  let after := fst (Uploader.handleSubmit (Loop.serve env) st) in
  let out := snd (Uploader.handleSubmit (Loop.serve env) st) in
  exists resp,
    Task.outcome (Route.POST env (Loop.deliver (Uploader.outgoing f data))) = inr resp
    /\ (Route.status resp = 200 ->
        Uploader.error after = None
        /\ (exists shown, Uploader.message after = Some shown)
        /\ Uploader.formState after = Uploader.formState Uploader.initial
        /\ Uploader.file after = None
        /\ In Uploader.RouterRefresh out)
    /\ (Route.status resp <> 200 ->
        exists reason,
          resp = {| Route.body := Route.error_body reason; Route.status := 500 |}
          /\ Uploader.error after = Some (Json.stringify (Route.error_body reason))
          /\ Uploader.message after = None
          /\ Uploader.formState after = Uploader.formState st
          /\ Uploader.file after = Uploader.file st
          /\ ~ In Uploader.RouterRefresh out).
Proof.
  intros Hfile Hsize Hparse after out. subst after out.
  apply too_large_false in Hsize.
  destruct (serve_delivers env f (Uploader.formState st) data Hparse)
    as (resp & Hout & Hserve & Hstatus).
  exists resp. split; [exact Hout |].
  rewrite (handleSubmit_sent (Loop.serve env) st f data Hfile Hsize Hparse), Hserve.
  simpl. destruct resp as [body status]. simpl in *.
  destruct Hstatus as [-> | [-> (reason & ->)]].
  - simpl. split.
    + intros _. repeat split; eauto.
    + intro H. contradiction H. reflexivity.
  - simpl. split.
    + discriminate.
    + intros _. exists reason. repeat split.
      intros [H | []]. discriminate H.
Qed.

(** X10 at a form whose publish time the engine cannot parse. *)
Lemma refused_submission_shows_json_witness :
  let st := Sample.filled Sample.png
              {| Uploader.caption := "Hello";
                 Uploader.publishAt := Some "not-a-date";
                 Uploader.mode := Uploader.scheduled;
                 Uploader.locationId := None |} in
  exists reason,
    Uploader.error (fst (Uploader.handleSubmit (Loop.serve Sample.env) st))
    = Some (Json.stringify (Route.error_body reason))
    /\ reason = "Invalid time value"
    /\ String.length (Json.stringify (Route.error_body reason)) = 30%nat.
Proof.
  intro st.
  assert (Hsize : Js.size Sample.png <= 8 * 1024 * 1024) by (simpl; lia).
  destruct (refused_submission_shows_json Sample.env st Sample.png _ eq_refl Hsize
              eq_refl) as (resp & Hout & _ & Hrefused).
  inversion Hout; subst.
  destruct Hrefused as (reason & Hresp & Herr & _); [discriminate |].
  exists reason. inversion Hresp; subst. split; [exact Herr |].
  split; reflexivity.
Defined.



(* ------------------------------------------------------------------ *)
(** ** What the dashboard shows *)

(** The page [Home] returns, by the outcome of the two fetches. *)
Lemma Home_page (env : Dashboard.Env) :
  Task.outcome (Dashboard.Home env)
  = inr (Dashboard.render (Dashboard.validateInstagramConfig env)
           (if Dashboard.ready (Dashboard.validateInstagramConfig env) then
              match Dashboard.Promise_all (Dashboard.limit_rejects_first env)
                      (Dashboard.fetchScheduledPosts env)
                      (Dashboard.fetchPublishingLimit env) with
              | inr both =>
                  {| Dashboard.scheduledPosts := fst both;
                     Dashboard.publishingLimit := snd both;
                     Dashboard.fetchError := None |}
              | inl e =>
                  {| Dashboard.scheduledPosts := [];
                     Dashboard.publishingLimit := None;
                     Dashboard.fetchError :=
                       Some (Js.message_or "Failed to load data from Instagram." e) |}
              end
            else {| Dashboard.scheduledPosts := [];
                    Dashboard.publishingLimit := None;
                    Dashboard.fetchError := None |})).
Proof.
  rewrite Home_load, load_spec.
  destruct (Dashboard.ready (Dashboard.validateInstagramConfig env)); reflexivity.
Qed.

(** X12.  The page never shows an error together with data.  An error
    banner has a non-empty text and comes with the placeholder and no quota
    banner; cards come with no error banner and are the cards of the posts
    fetched, in the order fetched; a quota banner shows the quota fetched
    and comes with no error banner. *)
Theorem dashboard_error_excludes_data (env : Dashboard.Env) (page : Dashboard.Page) :
  Task.outcome (Dashboard.Home env) = inr page ->
  (forall m,
     Dashboard.error_banner page = Some m ->
     m <> ""
     /\ Dashboard.posts_section page = Posts.Placeholder
     /\ Dashboard.quota_banner page = None)
  /\ (forall cards,
        Dashboard.posts_section page = Posts.Cards cards ->
        Dashboard.error_banner page = None
        /\ exists posts,
             Dashboard.fetchScheduledPosts env = inr posts
             /\ cards = map Posts.card posts
             /\ map Posts.key cards = map Posts.id posts)
  /\ (forall quota,
        Dashboard.quota_banner page = Some quota ->
        Dashboard.error_banner page = None
        /\ Dashboard.fetchPublishingLimit env = inr (Some quota)).
Proof.
  rewrite Home_page. intro H. inversion H; subst; clear H.
  unfold Dashboard.render.
  destruct (Dashboard.ready (Dashboard.validateInstagramConfig env)); simpl;
    [| repeat split; discriminate].
  unfold Dashboard.Promise_all.
  destruct (Dashboard.fetchScheduledPosts env) as [e1 | posts];
    destruct (Dashboard.fetchPublishingLimit env) as [e2 | limit]; simpl.
  - repeat apply conj; try (intros; discriminate).
    intros m Hm.
    destruct (Js.truthy (Js.message_or "Failed to load data from Instagram."
                           (if Dashboard.limit_rejects_first env then e2 else e1)))
      eqn:Ht; [| discriminate].
    inversion Hm; subst. repeat split. intro Heq. rewrite Heq in Ht. discriminate Ht.
  - repeat apply conj; try (intros; discriminate).
    intros m Hm.
    destruct (Js.truthy (Js.message_or "Failed to load data from Instagram." e1))
      eqn:Ht; [| discriminate].
    inversion Hm; subst. repeat split. intro Heq. rewrite Heq in Ht. discriminate Ht.
  - repeat apply conj; try (intros; discriminate).
    intros m Hm.
    destruct (Js.truthy (Js.message_or "Failed to load data from Instagram." e2))
      eqn:Ht; [| discriminate].
    inversion Hm; subst. repeat split. intro Heq. rewrite Heq in Ht. discriminate Ht.
  - repeat apply conj; try (intros; discriminate).
    + intros cards Hcards. split; [reflexivity |]. exists posts.
      destruct posts as [| p rest]; [discriminate |].
      inversion Hcards; subst. repeat split.
      simpl. f_equal. rewrite map_map. reflexivity.
    + intros quota Hq. subst. split; reflexivity.
Qed.

(** X12 at a dashboard whose quota fetch throws. *)
Lemma dashboard_error_excludes_data_witness :
  exists page,
    Task.outcome (Dashboard.Home Sample.dashboard_quota_down) = inr page
    /\ Dashboard.error_banner page = Some "Graph API error 190"
    /\ Dashboard.posts_section page = Posts.Placeholder.
Proof.
  eexists. split; [reflexivity |]. split; [reflexivity |].
  destruct (dashboard_error_excludes_data Sample.dashboard_quota_down _ eq_refl)
    as (Herr & _).
  exact (proj1 (proj2 (Herr "Graph API error 190" eq_refl))).
Defined.

(** X13.  With a ready configuration and two fetches that succeed, the
    page passes the posts as fetched to the list, shows the quota banner
    exactly when the quota is not null, and shows no error; the uploader is
    enabled with no missing key.  Both fetches were made, posts first. *)
Theorem dashboard_shows_fetched_data (env : Dashboard.Env)
    (posts : list Posts.ScheduledPost) (limit : option Dashboard.PublishingLimit) :
  Dashboard.ready (Dashboard.validateInstagramConfig env) = true ->
  Dashboard.fetchScheduledPosts env = inr posts ->
  Dashboard.fetchPublishingLimit env = inr limit ->
  Dashboard.Home env
  = ([Dashboard.FetchScheduledPosts; Dashboard.FetchPublishingLimit],
     inr {| Dashboard.quota_banner := limit;
            Dashboard.error_banner := None;
            Dashboard.envReady := true;
            Dashboard.missingKeys := [];
            Dashboard.posts_section := Posts.ScheduledPosts posts |})
  /\ (posts = [] <-> Posts.ScheduledPosts posts = Posts.Placeholder)
  /\ (forall cards,
        Posts.ScheduledPosts posts = Posts.Cards cards ->
        length cards = length posts
        /\ map Posts.key cards = map Posts.id posts
        /\ map Posts.label cards = map Posts.statusLabel posts).
Proof.
  intros Hready Hposts Hlimit.
  rewrite Home_load, load_spec, Hready, Hposts, Hlimit.
  unfold Dashboard.render, Task.trace, Task.outcome. simpl. rewrite Hready.
  split; [reflexivity |]. split.
  - destruct posts; split; try reflexivity; discriminate.
  - intros cards H. destruct posts as [| p rest]; [discriminate |].
    inversion H; subst. simpl. rewrite length_map, !map_map. repeat split.
Qed.

(** X13 at a dashboard with one post and no quota data. *)
Lemma dashboard_shows_fetched_data_witness :
  let env := {| Dashboard.validateInstagramConfig :=
                  {| Dashboard.ready := true; Dashboard.missing := [] |};
                Dashboard.fetchScheduledPosts := inr [Sample.pending_post];
                Dashboard.fetchPublishingLimit := inr None;
                Dashboard.limit_rejects_first := false |} in
  exists page,
    Task.outcome (Dashboard.Home env) = inr page
    /\ Dashboard.quota_banner page = None
    /\ Dashboard.error_banner page = None
    /\ Dashboard.posts_section page = Posts.Cards [Posts.card Sample.pending_post].
Proof.
  intro env.
  destruct (dashboard_shows_fetched_data env [Sample.pending_post] None
              eq_refl eq_refl eq_refl) as (Hhome & _).
  rewrite Hhome. eexists. split; [reflexivity |]. repeat split.
Defined.

(** X14.  A fetch that throws an [Error] whose message is empty leaves no
    trace on the page: the error is captured as the empty string, which
    shows no banner, and the page is the page of a load that found no post
    and no quota. *)
Theorem dashboard_silent_failure (env : Dashboard.Env)
    (limit : option Dashboard.PublishingLimit) :
  Dashboard.ready (Dashboard.validateInstagramConfig env) = true ->
  Dashboard.fetchScheduledPosts env = inl (Js.ErrorInstance "") ->
  Dashboard.fetchPublishingLimit env = inr limit ->
  Task.outcome (Dashboard.load env)
  = inr {| Dashboard.scheduledPosts := [];
           Dashboard.publishingLimit := None;
           Dashboard.fetchError := Some "" |}
  /\ Dashboard.Home env
     = Dashboard.Home
         {| Dashboard.validateInstagramConfig := Dashboard.validateInstagramConfig env;
            Dashboard.fetchScheduledPosts := inr [];
            Dashboard.fetchPublishingLimit := inr None;
            Dashboard.limit_rejects_first := Dashboard.limit_rejects_first env |}.
Proof.
  intros Hready Hposts Hlimit. split.
  - rewrite load_spec, Hready, Hposts, Hlimit. reflexivity.
  - rewrite !Home_load, !load_spec. simpl. rewrite Hready, Hposts, Hlimit.
    reflexivity.
Qed.

(** X14 at a dashboard whose posts fetch throws [new Error("")] while the
    quota arrives. *)
Lemma dashboard_silent_failure_witness :
  let env := {| Dashboard.validateInstagramConfig :=
                  {| Dashboard.ready := true; Dashboard.missing := [] |};
                Dashboard.fetchScheduledPosts := inl (Js.ErrorInstance "");
                Dashboard.fetchPublishingLimit :=
                  inr (Some {| Dashboard.quota_usage := 3;
                               Dashboard.quota_total := 25;
                               Dashboard.quota_remaining := 22;
                               Dashboard.reset_time := None |});
                Dashboard.limit_rejects_first := false |} in
  Task.outcome (Dashboard.Home env)
  = inr {| Dashboard.quota_banner := None;
           Dashboard.error_banner := None;
           Dashboard.envReady := true;
           Dashboard.missingKeys := [];
           Dashboard.posts_section := Posts.Placeholder |}.
Proof.
  intro env.
  destruct (dashboard_silent_failure env _ eq_refl eq_refl eq_refl) as [_ Hsame].
  rewrite Hsame. reflexivity.
Defined.

(* ------------------------------------------------------------------ *)
(** ** What a card shows *)

(** The preview of a card, by its two URLs and its caption. *)
Lemma preview_cases (post : Posts.ScheduledPost) :
  Posts.preview (Posts.card post)
  = if Js.truthy_opt (Posts.media_url post)
       || Js.truthy_opt (Posts.thumbnail_url post)
    then Some (Js.nullish (Js.coalesce (Posts.media_url post)
                             (Posts.thumbnail_url post)) "",
               Js.nullish (Posts.caption post) "Scheduled Instagram post preview")
    else None.
Proof.
  unfold Posts.card, Js.or_else. simpl.
  destruct (Posts.media_url post) as [m |]; simpl; [| reflexivity].
  destruct (Js.truthy m) eqn:Hm; simpl; [rewrite Hm |]; reflexivity.
Qed.

(** X15.  A card has a preview exactly when [media_url] or
    [thumbnail_url] is a non-empty string.  The preview's source is then
    [media_url] whenever that field is present, an empty one too (so an
    empty [media_url] beside a thumbnail gives an image with an empty
    source), and the thumbnail only when [media_url] is undefined or null.
    Its alternative text is the caption when present (an empty one too),
    else the fixed text.  A caption or a permalink that is shown is never
    empty. *)
Theorem card_preview_source (post : Posts.ScheduledPost) :
  (Posts.preview (Posts.card post) = None
   <-> Js.truthy_opt (Posts.media_url post) = false
       /\ Js.truthy_opt (Posts.thumbnail_url post) = false)
  /\ (forall src alt,
        Posts.preview (Posts.card post) = Some (src, alt) ->
        (forall m, Posts.media_url post = Some m -> src = m)
        /\ (Posts.media_url post = None ->
            Posts.thumbnail_url post = Some src /\ src <> "")
        /\ (forall c, Posts.caption post = Some c -> alt = c)
        /\ (Posts.caption post = None -> alt = "Scheduled Instagram post preview"))
  /\ (forall t,
        Posts.media_url post = Some "" -> Posts.thumbnail_url post = Some t ->
        t <> "" ->
        Posts.preview (Posts.card post)
        = Some ("", Js.nullish (Posts.caption post)
                      "Scheduled Instagram post preview"))
  /\ (forall c, Posts.shown_caption (Posts.card post) = Some c ->
                c <> "" /\ Posts.caption post = Some c)
  /\ (forall l, Posts.link (Posts.card post) = Some l ->
                l <> "" /\ Posts.permalink post = Some l).
Proof.
  assert (Hne : forall s, Js.truthy s = true -> s <> "")
    by (intros s H ->; discriminate H).
  rewrite preview_cases.
  split; [| split; [| split; [| split]]].
  - destruct (Js.truthy_opt (Posts.media_url post));
      destruct (Js.truthy_opt (Posts.thumbnail_url post)); simpl;
      split; try discriminate; try (intros [? ?]; discriminate); auto.
  - intros src alt.
    destruct (Posts.media_url post) as [m |] eqn:Hm; simpl.
    + destruct (Js.truthy m || Js.truthy_opt (Posts.thumbnail_url post));
        [| discriminate].
      intro H. inversion H; subst. repeat apply conj.
      * intros m' Hm'. inversion Hm'. reflexivity.
      * discriminate.
      * intros c ->. reflexivity.
      * intros ->. reflexivity.
    + destruct (Posts.thumbnail_url post) as [t |] eqn:Ht; simpl; [| discriminate].
      destruct (Js.truthy t) eqn:Htruthy; [| discriminate].
      intro H. inversion H; subst. repeat apply conj.
      * discriminate.
      * intros _. split; [reflexivity | apply Hne; exact Htruthy].
      * intros c ->. reflexivity.
      * intros ->. reflexivity.
  - intros t -> -> Hnonempty. simpl.
    destruct t as [| c t]; [contradiction |]. reflexivity.
  - intros c. unfold Posts.card. simpl.
    destruct (Posts.caption post) as [c' |]; simpl; [| discriminate].
    destruct (Js.truthy c') eqn:Htruthy; [| discriminate].
    intro H. inversion H; subst. split; [apply Hne; exact Htruthy | reflexivity].
  - intros l. unfold Posts.card. simpl.
    destruct (Posts.permalink post) as [l' |]; simpl; [| discriminate].
    destruct (Js.truthy l') eqn:Htruthy; [| discriminate].
    intro H. inversion H; subst. split; [apply Hne; exact Htruthy | reflexivity].
Qed.

(** X15 at a post with an empty [media_url] and a thumbnail. *)
Lemma card_preview_source_witness :
  let post := {| Posts.id := "17900000000000004"; Posts.caption := Some "";
                 Posts.media_url := Some "";
                 Posts.thumbnail_url := Some "https://cdn.example/thumb.jpg";
                 Posts.status_code := None; Posts.status := None;
                 Posts.is_published := None; Posts.permalink := Some "" |} in
  Posts.preview (Posts.card post) = Some ("", "")
  /\ Posts.link (Posts.card post) = None.
Proof.
  intro post. split; [| reflexivity].
  destruct (card_preview_source post) as (_ & _ & Hempty & _).
  rewrite (Hempty "https://cdn.example/thumb.jpg" eq_refl eq_refl);
    [reflexivity | discriminate].
Defined.
